(** * PromptEasy: a shallow embedding of the chat-sidebar extension

    The development follows the three page-resident classes of the
    extension,

      - [PlatformDetector]   (src/lib/platformDetector.js),
      - [MessageExtractor]   (src/lib/messageExtractor.js),
      - [SidebarManager]     (the sidebar manager module),

    over an explicit model of the part of the browser they talk to: the
    selector engine of the chat page, the console, extension-local
    storage, timers and the sidebar's own DOM. *)

From Stdlib Require Import ZArith NArith List Bool Lia.
From Stdlib Require Import Strings.String Strings.Ascii.
From stdpp Require Import base option list gmap strings.

Set Default Proof Using "Type".

(** ** JavaScript strings

    A JavaScript string is a sequence of UTF-16 code units; [length],
    [slice], [includes] and regular expressions without the [u] flag all
    work on code units. *)

Abbreviation jsstring := (list N).

(** [js "..."] reads an ASCII literal as a JavaScript string. *)
Fixpoint js (s : string) : jsstring :=
  match s with
  | EmptyString => []
  | String a r => N_of_ascii a :: js r
  end.

Module Char.
Definition amp : N := 38.        (* & *)
Definition lt : N := 60.         (* < *)
Definition gt : N := 62.         (* > *)
Definition quot : N := 34.       (* double quote *)
Definition apos : N := 39.       (* ' *)
Definition backtick : N := 96.   (* ` *)
Definition space : N := 32.
Definition comma : N := 44.
End Char.

(** The class [\s] of ECMAScript regular expressions: WhiteSpace and
    LineTerminator code points.  [String.prototype.trim] strips the same
    set. *)
Definition isWhiteSpace (c : N) : bool :=
  (((9 <=? c) && (c <=? 13))         (* TAB LF VT FF CR *)
   || (c =? 32)                        (* SPACE *)
   || (c =? 160)                       (* NO-BREAK SPACE *)
   || (c =? 5760)                      (* U+1680 *)
   || ((8192 <=? c) && (c <=? 8202)) (* U+2000 .. U+200A *)
   || (c =? 8232) || (c =? 8233)       (* U+2028, U+2029 *)
   || (c =? 8239)                      (* U+202F *)
   || (c =? 8287)                      (* U+205F *)
   || (c =? 12288)                     (* U+3000 *)
   || (c =? 65279))%N.                 (* U+FEFF *)

(** [s.replace(/\s+/g, ' ')]: every maximal run of white space becomes
    one space.  [inRun] records that the previous code unit belonged to
    the run being replaced. *)
Fixpoint collapseFrom (inRun : bool) (s : jsstring) : jsstring :=
  match s with
  | [] => []
  | c :: r =>
      if isWhiteSpace c
      then (if inRun then collapseFrom true r
            else Char.space :: collapseFrom true r)
      else c :: collapseFrom false r
  end.

Definition collapseWhiteSpace (s : jsstring) : jsstring :=
  collapseFrom false s.

(** [s.replace(/[`]/g, '')]. *)
Definition stripBackticks (s : jsstring) : jsstring :=
  List.filter (fun c => negb (c =? Char.backtick)%N) s.

Fixpoint trimStart (s : jsstring) : jsstring :=
  match s with
  | [] => []
  | c :: r => if isWhiteSpace c then trimStart r else s
  end.

Definition trimEnd (s : jsstring) : jsstring :=
  rev (trimStart (rev s)).

(** [s.trim()]. *)
Definition trim (s : jsstring) : jsstring := trimEnd (trimStart s).

(** [s.slice(0, n)] for an integral [n]: a negative end counts from the
    end of the string. *)
Definition slice0 (s : jsstring) (n : Z) : jsstring :=
  if (n <? 0)%Z
  then take (Z.to_nat (Z.of_nat (length s) + n)) s
  else take (Z.to_nat n) s.

Fixpoint startsWith (s pat : jsstring) {struct pat} : bool :=
  match pat, s with
  | [], _ => true
  | _ :: _, [] => false
  | p :: pat', c :: s' => (c =? p)%N && startsWith s' pat'
  end.

(** [s.includes(pat)]: [pat] occurs in [s] at some position. *)
Fixpoint includes (s pat : jsstring) : bool :=
  startsWith s pat ||
  match s with
  | [] => false
  | _ :: r => includes r pat
  end.

(** [parts.join(sep)], which is also how an array of strings is coerced
    to a string (with [sep] a comma). *)
Fixpoint join (sep : jsstring) (parts : list jsstring) : jsstring :=
  match parts with
  | [] => []
  | [p] => p
  | p :: rest => p ++ sep ++ join sep rest
  end.

(** ** MessageExtractor.getPreview *)

Definition ellipsis : jsstring := js "...".

Definition getPreview (text : jsstring) (length : Z) : jsstring :=
  let normalized := trim (stripBackticks (collapseWhiteSpace text)) in
  if (Z.of_nat (List.length normalized) <=? length)%Z
  then normalized
  else slice0 normalized length ++ ellipsis.

(** The default value of the [length] parameter. *)
Definition defaultPreviewLength : Z := 60.

(** ** SidebarManager.escapeHtml *)

Definition escapeChar (m : N) : jsstring :=
  if (m =? Char.amp)%N then js "&amp;"
  else if (m =? Char.lt)%N then js "&lt;"
  else if (m =? Char.gt)%N then js "&gt;"
  else if (m =? Char.quot)%N then js "&quot;"
  else if (m =? Char.apos)%N then js "&#039;"
  else [m].

(** [text.replace(re, (m) => map[m])] where the global expression [re]
    is the class of the five characters [amp], [lt], [gt], [quot] and
    [apos]: each of them is replaced through the table [map], every
    other code unit is copied. *)
Definition escapeHtml (text : jsstring) : jsstring :=
  flat_map escapeChar text.

(** ** Platform definitions (the JSON configuration) *)

(** A selector of the configuration is a string or an array of strings. *)
Inductive Selector :=
| SelString (selector : jsstring)
| SelArray (selectors : list jsstring).

(** A value is falsy when it is absent or the empty string; an array is
    always truthy. *)
Definition truthy (contentSelector : option Selector) : bool :=
  match contentSelector with
  | None => false
  | Some (SelString []) => false
  | Some _ => true
  end.

(** [String(sel)]: what [querySelectorAll] sees when it is handed a
    configuration value; an array is joined with commas. *)
Definition selectorText (sel : Selector) : jsstring :=
  match sel with
  | SelString s => s
  | SelArray l => join [Char.comma] l
  end.

Record SelectorSet := {
  userMessage : Selector;
  assistantMessage : Selector;
  messageContent : option Selector;
  scrollContainer : jsstring;
  (** [fallbackSelectors?.userMessage], an array of strings when present *)
  fallbackUserMessage : option (list jsstring)
}.

Record PlatformConfig := {
  name : jsstring;
  urls : list jsstring;
  selectors : SelectorSet
}.

(** The object [{ key: platformKey, ...platformConfig }]. *)
Record Platform := {
  key : jsstring;
  config : PlatformConfig
}.

(** ** The chat page *)

(** DOM elements of the host page are known by identity only. *)
Abbreviation Element := nat.

(** The selector engine and text of the host page, as the extension
    observes it.  A selector that is not valid CSS makes
    [querySelectorAll] and [querySelector] throw; [matchAll] lists the
    matches in document order. *)
Record Document := {
  selectorValid : jsstring -> bool;
  matchAll : jsstring -> list Element;
  matchWithin : Element -> jsstring -> option Element;
  textContent : Element -> option jsstring
}.

Record MessageRecord := {
  index : nat;
  userText : jsstring;
  userElement : Element;
  timestamp : Z;
  preview : jsstring
}.

(** A JavaScript number as it reaches [scrollToMessage]: the result of
    [parseInt], an integer or NaN. *)
Inductive Num := NaN | Int (z : Z).

Inductive LogEntry :=
| WarnConfigNotLoaded
| LogDetected (platformKey : jsstring)
| WarnUnknownPlatform
| WarnInvalidSelector (selector : jsstring)
| WarnPlatformNotDetected
| WarnNoUserMessages
| LogExtracted (count : nat)
| LogDeepSeekExtracted (count : nat)
| WarnMessageNotFound (index : Num).

(** ** The sidebar's own DOM *)

(** One rendered row of the message list. *)
Record MessageItem := {
  dataIndex : nat;
  title : jsstring;
  number : nat;
  text : jsstring;
  active : bool
}.

(** The content of the [.aichathelper-messages] container. *)
Inductive MessagesHtml :=
| Loading
| EmptyNotice
| Items (items : list MessageItem).

(** The two closures registered by [attachEventListeners]. *)
Inductive Listener := ToggleClick | MessagesClick.

(** The sidebar element.  Its scaffold (header with the toggle button,
    message container, footer with the platform label) is fixed by the
    template of [createSidebar]; only the parts below change. *)
Record SidebarDom := {
  attached : bool;                 (* child of document.body *)
  collapsed : bool;                (* class collapsed *)
  toggleIcon : jsstring;           (* text of .aichathelper-toggle-icon *)
  messagesHtml : MessagesHtml;
  platformLabel : jsstring;        (* text of .aichathelper-platform *)
  toggleListeners : list Listener;   (* click listeners of the button *)
  messagesListeners : list Listener  (* click listeners of the list *)
}.

Inductive ScrollCall :=
| ScrollToElement (el : Element)       (* block: center *)
| ScrollToItem (dataIndex : nat).      (* block: nearest *)

Inductive TimerTask := RemoveHighlight.

(** ** The state of a page *)

(** [platformsConfig] is [None] until [init] has run; afterwards it
    holds the entries of [platformsConfig.platforms] in the order in
    which [Object.entries] lists them. *)
Record PlatformDetector := {
  platformsConfig : option (list (jsstring * PlatformConfig));
  currentPlatform : option Platform
}.

Record MessageExtractor := {
  messages : list MessageRecord;
  lastExtractTime : Z
}.

Record SidebarManager := {
  sidebarElement : option SidebarDom;
  isVisible : bool;
  highlightedElement : option Element
}.

(** What the page and the browser provide ([hostname], [document],
    [now]) and what the extension leaves behind in them. *)
Record Browser := {
  hostname : jsstring;                 (* window.location.hostname *)
  document : Document;
  now : Z;                             (* Date.now() *)
  console : list LogEntry;
  storage : gmap string bool;          (* chrome.storage.local *)
  highlighted : gset Element;          (* class aichathelper-highlighted *)
  scrollLog : list ScrollCall;         (* scrollIntoView requests *)
  timers : list (Z * TimerTask)        (* pending setTimeout calls *)
}.

Record World := {
  platformDetector : PlatformDetector;
  messageExtractor : MessageExtractor;
  sidebarManager : SidebarManager;
  browser : Browser
}.

(** Field updates. *)
Definition setCurrentPlatform (p : option Platform) (pd : PlatformDetector)
  : PlatformDetector :=
  {| platformsConfig := platformsConfig pd; currentPlatform := p |}.

Definition setMessages (ms : list MessageRecord) (ex : MessageExtractor)
  : MessageExtractor :=
  {| messages := ms; lastExtractTime := lastExtractTime ex |}.

Definition setLastExtractTime (t : Z) (ex : MessageExtractor)
  : MessageExtractor :=
  {| messages := messages ex; lastExtractTime := t |}.

Definition setSidebarElement (el : option SidebarDom) (sm : SidebarManager)
  : SidebarManager :=
  {| sidebarElement := el; isVisible := isVisible sm;
     highlightedElement := highlightedElement sm |}.

Definition setIsVisible (v : bool) (sm : SidebarManager) : SidebarManager :=
  {| sidebarElement := sidebarElement sm; isVisible := v;
     highlightedElement := highlightedElement sm |}.

Definition setHighlightedElement (el : option Element) (sm : SidebarManager)
  : SidebarManager :=
  {| sidebarElement := sidebarElement sm; isVisible := isVisible sm;
     highlightedElement := el |}.

Definition setConsole (c : list LogEntry) (b : Browser) : Browser :=
  {| hostname := hostname b; document := document b; now := now b;
     console := c; storage := storage b; highlighted := highlighted b;
     scrollLog := scrollLog b; timers := timers b |}.

Definition setStorage (s : gmap string bool) (b : Browser) : Browser :=
  {| hostname := hostname b; document := document b; now := now b;
     console := console b; storage := s; highlighted := highlighted b;
     scrollLog := scrollLog b; timers := timers b |}.

Definition setHighlighted (h : gset Element) (b : Browser) : Browser :=
  {| hostname := hostname b; document := document b; now := now b;
     console := console b; storage := storage b; highlighted := h;
     scrollLog := scrollLog b; timers := timers b |}.

Definition setScrollLog (l : list ScrollCall) (b : Browser) : Browser :=
  {| hostname := hostname b; document := document b; now := now b;
     console := console b; storage := storage b; highlighted := highlighted b;
     scrollLog := l; timers := timers b |}.

Definition setTimers (t : list (Z * TimerTask)) (b : Browser) : Browser :=
  {| hostname := hostname b; document := document b; now := now b;
     console := console b; storage := storage b; highlighted := highlighted b;
     scrollLog := scrollLog b; timers := t |}.

Definition onDetector (f : PlatformDetector -> PlatformDetector) (w : World)
  : World :=
  {| platformDetector := f (platformDetector w);
     messageExtractor := messageExtractor w;
     sidebarManager := sidebarManager w; browser := browser w |}.

Definition onExtractor (f : MessageExtractor -> MessageExtractor) (w : World)
  : World :=
  {| platformDetector := platformDetector w;
     messageExtractor := f (messageExtractor w);
     sidebarManager := sidebarManager w; browser := browser w |}.

Definition onManager (f : SidebarManager -> SidebarManager) (w : World)
  : World :=
  {| platformDetector := platformDetector w;
     messageExtractor := messageExtractor w;
     sidebarManager := f (sidebarManager w); browser := browser w |}.

Definition onBrowser (f : Browser -> Browser) (w : World) : World :=
  {| platformDetector := platformDetector w;
     messageExtractor := messageExtractor w;
     sidebarManager := sidebarManager w; browser := f (browser w) |}.

(** ** Methods as state transformers

    A method runs on the world and either returns or throws; the only
    exception these classes can meet is the [SyntaxError] of the selector
    engine. *)

Inductive Exception := SyntaxError (selector : jsstring).

Inductive Completion (A : Type) :=
| Normal (a : A)
| Thrown (e : Exception).
Arguments Normal {A} a.
Arguments Thrown {A} e.

Definition M (A : Type) : Type := World -> Completion A * World.

Definition ret {A} (a : A) : M A := fun w => (Normal a, w).

Definition bind {A B} (m : M A) (k : A -> M B) : M B :=
  fun w =>
    match m w with
    | (Normal a, w') => k a w'
    | (Thrown e, w') => (Thrown e, w')
    end.

Definition throw {A} (e : Exception) : M A := fun w => (Thrown e, w).

(** [try { m } catch (error) { h error }]. *)
Definition tryCatch {A} (m : M A) (h : Exception -> M A) : M A :=
  fun w =>
    match m w with
    | (Normal a, w') => (Normal a, w')
    | (Thrown e, w') => h e w'
    end.

Definition gets {A} (f : World -> A) : M A := fun w => (Normal (f w), w).

Definition modify (f : World -> World) : M unit := fun w => (Normal tt, f w).

Notation "'let*' x ':=' m 'in' k" := (bind m (fun x => k))
  (at level 10, x name, m at level 100, k at level 200).
Notation "m >>> k" := (bind m (fun _ => k))
  (at level 65, right associativity).

(** The value a method returns and the world it leaves. *)
Definition result {A} (r : Completion A * World) : Completion A := fst r.
Definition after {A} (r : Completion A * World) : World := snd r.

(** [console.log] and [console.warn]. *)
Definition emit (entry : LogEntry) : M unit :=
  modify (onBrowser (fun b => setConsole (console b ++ [entry]) b)).

(** [document.querySelectorAll(selector)]. *)
Definition querySelectorAll (selector : jsstring) : M (list Element) :=
  let* doc := gets (fun w => document (browser w)) in
  if selectorValid doc selector then ret (matchAll doc selector)
  else throw (SyntaxError selector).

(** [element.querySelector(selector)]. *)
Definition querySelector (element : Element) (selector : jsstring)
  : M (option Element) :=
  let* doc := gets (fun w => document (browser w)) in
  if selectorValid doc selector then ret (matchWithin doc element selector)
  else throw (SyntaxError selector).

(** The same two calls on a selector literal of the source that is valid
    CSS ([.ds-message], [.fbb737a4]): they cannot throw. *)
Definition querySelectorAllLiteral (selector : jsstring) : M (list Element) :=
  gets (fun w => matchAll (document (browser w)) selector).

Definition querySelectorLiteral (element : Element) (selector : jsstring)
  : M (option Element) :=
  gets (fun w => matchWithin (document (browser w)) element selector).

(** [node.textContent?.trim() || '']. *)
Definition trimmedText (node : Element) : M jsstring :=
  let* doc := gets (fun w => document (browser w)) in
  ret match textContent doc node with
      | Some t => trim t
      | None => []
      end.

(** ** PlatformDetector *)

(** The two nested loops of [detectPlatform]: the entries of
    [platformsConfig.platforms] in the order of [Object.entries], and for
    each entry its [urls]; the first pattern that the host name includes
    decides. *)
Fixpoint scanPlatforms (currentUrl : jsstring)
    (entries : list (jsstring * PlatformConfig)) : option Platform :=
  match entries with
  | [] => None
  | (platformKey, platformConfig) :: rest =>
      if existsb (fun urlPattern => includes currentUrl urlPattern)
                 (urls platformConfig)
      then Some {| key := platformKey; config := platformConfig |}
      else scanPlatforms currentUrl rest
  end.

Definition detectPlatform : M (option Platform) :=
  let* cfg := gets (fun w => platformsConfig (platformDetector w)) in
  match cfg with
  | None => emit WarnConfigNotLoaded >>> ret None
  | Some platforms =>
      let* currentUrl := gets (fun w => hostname (browser w)) in
      match scanPlatforms currentUrl platforms with
      | Some p =>
          modify (onDetector (setCurrentPlatform (Some p))) >>>
          emit (LogDetected (key p)) >>>
          ret (Some p)
      | None => emit WarnUnknownPlatform >>> ret None
      end
  end.

Definition getPlatformConfig : M (option Platform) :=
  gets (fun w => currentPlatform (platformDetector w)).

(** [this.currentPlatform?.name || 'Unknown Platform']. *)
Definition getPlatformName : M jsstring :=
  let* p := gets (fun w => currentPlatform (platformDetector w)) in
  ret match p with
      | Some p => match name (config p) with
                  | [] => js "Unknown Platform"
                  | n => n
                  end
      | None => js "Unknown Platform"
      end.

(** ** MessageExtractor *)

(** The loop of [findElements] over an array of selectors. *)
Fixpoint findFirst (selectors : list jsstring) : M (option (list Element)) :=
  match selectors with
  | [] => ret None
  | selector :: rest =>
      let* hit :=
        tryCatch
          (let* elements := querySelectorAll selector in
           ret (if (0 <? length elements)%nat then Some elements else None))
          (fun error => emit (WarnInvalidSelector selector) >>> ret None) in
      match hit with
      | Some elements => ret (Some elements)
      | None => findFirst rest
      end
  end.

(** [None] is the [null] result. *)
Definition findElements (selectors : Selector) : M (option (list Element)) :=
  match selectors with
  | SelArray l => findFirst l
  | SelString s =>
      tryCatch
        (let* elements := querySelectorAll s in ret (Some elements))
        (fun error => emit (WarnInvalidSelector s) >>> ret None)
  end.

(** The loop of [extractText] that looks for the first content selector
    with a match inside [element]. *)
Fixpoint firstChild (element : Element) (selectorArray : list jsstring)
  : M Element :=
  match selectorArray with
  | [] => ret element
  | selector :: rest =>
      let* child := querySelector element selector in
      match child with
      | Some c => ret c
      | None => firstChild element rest
      end
  end.

(** [element] comes from a node list and is never null. *)
Definition extractText (element : Element) (contentSelector : option Selector)
  : M jsstring :=
  let* textElement :=
    match contentSelector with
    | Some sel =>
        if truthy contentSelector then
          let* found := findElements sel in
          match found with
          | Some (_ :: _) =>
              let selectorArray :=
                match sel with
                | SelArray l => l
                | SelString s => [s]
                end in
              firstChild element selectorArray
          | _ => ret element
          end
        else ret element
    | None => ret element
    end in
  trimmedText textElement.

Definition mkRecord (index : nat) (userText : jsstring) (userElement : Element)
    (timestamp : Z) : MessageRecord :=
  {| index := index; userText := userText; userElement := userElement;
     timestamp := timestamp;
     preview := getPreview userText defaultPreviewLength |}.

(** The [forEach] of the generic path: [index] is the position of the
    element in the node list, [messages] the array built so far. *)
Fixpoint collectMessages (contentSelector : option Selector)
    (userElements : list Element) (index : nat)
    (messages : list MessageRecord) : M (list MessageRecord) :=
  match userElements with
  | [] => ret messages
  | userElement :: rest =>
      let* userText := extractText userElement contentSelector in
      let* t := gets (fun w => now (browser w)) in
      let messages' :=
        if (0 <? length userText)%nat
        then messages ++ [mkRecord index userText userElement t]
        else messages in
      collectMessages contentSelector rest (S index) messages'
  end.

(** The [forEach] of the DeepSeek path. *)
Fixpoint collectDeepSeek (messageElements : list Element)
    (messages : list MessageRecord) : M (list MessageRecord) :=
  match messageElements with
  | [] => ret messages
  | element :: rest =>
      let* userContent := querySelectorLiteral element (js ".fbb737a4") in
      match userContent with
      | Some content =>
          let* userText := trimmedText content in
          let* t := gets (fun w => now (browser w)) in
          let messages' :=
            if (0 <? length userText)%nat
            then messages ++ [mkRecord (length messages) userText element t]
            else messages in
          collectDeepSeek rest messages'
      | None => collectDeepSeek rest messages
      end
  end.

(** [this.messages = messages; this.lastExtractTime = Date.now()]. *)
Definition storeMessages (messages : list MessageRecord) : M unit :=
  modify (onExtractor (setMessages messages)) >>>
  let* t := gets (fun w => now (browser w)) in
  modify (onExtractor (setLastExtractTime t)).

Definition extractMessagesForDeepSeek : M (list MessageRecord) :=
  let* messageElements := querySelectorAllLiteral (js ".ds-message") in
  let* messages := collectDeepSeek messageElements [] in
  storeMessages messages >>>
  emit (LogDeepSeekExtracted (length messages)) >>>
  ret messages.

Definition isDeepSeek (platform : Platform) : bool :=
  bool_decide (key platform = js "deepseek").

Definition extractMessages : M (list MessageRecord) :=
  let* platform := getPlatformConfig in
  match platform with
  | None => emit WarnPlatformNotDetected >>> ret []
  | Some platform =>
      if isDeepSeek platform then extractMessagesForDeepSeek
      else
        let sels := selectors (config platform) in
        let userSelectors :=
          SelArray (selectorText (userMessage sels)
                    :: default [] (fallbackUserMessage sels)) in
        let* userElements := findElements userSelectors in
        match userElements with
        | Some (e :: es) =>
            let* messages :=
              collectMessages (messageContent sels) (e :: es) 0 [] in
            storeMessages messages >>>
            emit (LogExtracted (length messages)) >>>
            ret messages
        | _ => emit WarnNoUserMessages >>> ret []
        end
  end.

Definition getMessages : M (list MessageRecord) :=
  gets (fun w => messages (messageExtractor w)).

(** [this.messages[index] || null]. *)
Definition lookupMessage (ms : list MessageRecord) (index : Num)
  : option MessageRecord :=
  match index with
  | Int z => if (0 <=? z)%Z then ms !! Z.to_nat z else None
  | NaN => None
  end.

Definition getMessageByIndex (index : Num) : M (option MessageRecord) :=
  let* ms := gets (fun w => messages (messageExtractor w)) in
  ret (lookupMessage ms index).

Definition getMessageCount : M nat :=
  gets (fun w => length (messages (messageExtractor w))).

Definition shouldRefresh : M bool :=
  let* platform := getPlatformConfig in
  match platform with
  | None => ret false
  | Some platform =>
      let* t := gets (fun w => now (browser w)) in
      let* last := gets (fun w => lastExtractTime (messageExtractor w)) in
      let timeDiff := (t - last)%Z in
      let* currentCount :=
        if isDeepSeek platform then
          let* found := querySelectorAllLiteral (js ".ds-message .fbb737a4") in
          ret (length found)
        else
          let* found := findElements (userMessage (selectors (config platform))) in
          ret match found with
              | Some elements => length elements
              | None => 0
              end in
      let* cached := gets (fun w => length (messages (messageExtractor w))) in
      ret ((2000 <? timeDiff)%Z || negb (currentCount =? cached)%nat)
  end.

(** ** SidebarManager *)

Definition setAttached (v : bool) (el : SidebarDom) : SidebarDom :=
  {| attached := v; collapsed := collapsed el; toggleIcon := toggleIcon el;
     messagesHtml := messagesHtml el; platformLabel := platformLabel el;
     toggleListeners := toggleListeners el;
     messagesListeners := messagesListeners el |}.

Definition setCollapsed (v : bool) (el : SidebarDom) : SidebarDom :=
  {| attached := attached el; collapsed := v; toggleIcon := toggleIcon el;
     messagesHtml := messagesHtml el; platformLabel := platformLabel el;
     toggleListeners := toggleListeners el;
     messagesListeners := messagesListeners el |}.

Definition setToggleIcon (s : jsstring) (el : SidebarDom) : SidebarDom :=
  {| attached := attached el; collapsed := collapsed el; toggleIcon := s;
     messagesHtml := messagesHtml el; platformLabel := platformLabel el;
     toggleListeners := toggleListeners el;
     messagesListeners := messagesListeners el |}.

Definition setMessagesHtml (h : MessagesHtml) (el : SidebarDom) : SidebarDom :=
  {| attached := attached el; collapsed := collapsed el;
     toggleIcon := toggleIcon el;
     messagesHtml := h; platformLabel := platformLabel el;
     toggleListeners := toggleListeners el;
     messagesListeners := messagesListeners el |}.

Definition setPlatformLabel (s : jsstring) (el : SidebarDom) : SidebarDom :=
  {| attached := attached el; collapsed := collapsed el;
     toggleIcon := toggleIcon el;
     messagesHtml := messagesHtml el; platformLabel := s;
     toggleListeners := toggleListeners el;
     messagesListeners := messagesListeners el |}.

Definition addToggleListener (l : Listener) (el : SidebarDom) : SidebarDom :=
  {| attached := attached el; collapsed := collapsed el;
     toggleIcon := toggleIcon el;
     messagesHtml := messagesHtml el; platformLabel := platformLabel el;
     toggleListeners := toggleListeners el ++ [l];
     messagesListeners := messagesListeners el |}.

Definition addMessagesListener (l : Listener) (el : SidebarDom) : SidebarDom :=
  {| attached := attached el; collapsed := collapsed el;
     toggleIcon := toggleIcon el;
     messagesHtml := messagesHtml el; platformLabel := platformLabel el;
     toggleListeners := toggleListeners el;
     messagesListeners := messagesListeners el ++ [l] |}.

(** A change made to the node that [this.sidebarElement] refers to. *)
Definition onSidebar (f : SidebarDom -> SidebarDom) : M unit :=
  modify (onManager (fun sm => setSidebarElement (f <$> sidebarElement sm) sm)).

Definition minusSign : jsstring := [8722%N].   (* U+2212 *)
Definition plusSign : jsstring := js "+".

(** The element built from the template of [createSidebar], before it
    is appended to the body. *)
Definition sidebarTemplate : SidebarDom :=
  {| attached := false; collapsed := false; toggleIcon := minusSign;
     messagesHtml := Loading; platformLabel := [];
     toggleListeners := []; messagesListeners := [] |}.

Definition attachEventListeners : M unit :=
  let* el := gets (fun w => sidebarElement (sidebarManager w)) in
  match el with
  | None => ret tt
  | Some _ =>
      (* both scaffold nodes are part of the template *)
      onSidebar (addToggleListener ToggleClick) >>>
      onSidebar (addMessagesListener MessagesClick)
  end.

Definition createSidebar : M (option SidebarDom) :=
  let* el := gets (fun w => sidebarElement (sidebarManager w)) in
  match el with
  | Some existing => ret (Some existing)
  | None =>
      let sidebar := sidebarTemplate in
      (* document.body.appendChild(sidebar) *)
      let sidebar := setAttached true sidebar in
      modify (onManager (setSidebarElement (Some sidebar))) >>>
      attachEventListeners >>>
      (* [sidebar] and [this.sidebarElement] are one node *)
      gets (fun w => sidebarElement (sidebarManager w))
  end.

Definition renderItem (idx : nat) (msg : MessageRecord) : MessageItem :=
  {| dataIndex := idx;
     title := escapeHtml (userText msg);
     number := idx + 1;
     text := escapeHtml (preview msg);
     active := false |}.

Definition platformPrefix : jsstring := [24179; 21488; 58; 32]%N.

Definition updateSidebar : M unit :=
  let* el := gets (fun w => sidebarElement (sidebarManager w)) in
  (match el with
   | None => createSidebar >>> ret tt
   | Some _ => ret tt
   end) >>>
  let* messages := getMessages in
  let* platformName := getPlatformName in
  onSidebar (setPlatformLabel (platformPrefix ++ platformName)) >>>
  match messages with
  | [] => onSidebar (setMessagesHtml EmptyNotice)
  | _ => onSidebar (setMessagesHtml (Items (imap renderItem messages)))
  end.

(** The first row whose [data-index] attribute reads as [index]. *)
Fixpoint activate (index : Z) (items : list MessageItem)
  : option (list MessageItem * nat) :=
  match items with
  | [] => None
  | item :: rest =>
      if (Z.of_nat (dataIndex item) =? index)%Z
      then Some ({| dataIndex := dataIndex item; title := title item;
                    number := number item; text := text item;
                    active := true |} :: rest, dataIndex item)
      else match activate index rest with
           | Some (rest', i) => Some (item :: rest', i)
           | None => None
           end
  end.

Definition deactivate (item : MessageItem) : MessageItem :=
  {| dataIndex := dataIndex item; title := title item;
     number := number item; text := text item; active := false |}.

Definition scrollIntoView (call : ScrollCall) : M unit :=
  modify (onBrowser (fun b => setScrollLog (scrollLog b ++ [call]) b)).

Definition updateActiveItem (index : Num) : M unit :=
  let* el := gets (fun w => sidebarElement (sidebarManager w)) in
  match el with
  | None => ret tt
  | Some el =>
      match messagesHtml el with
      | Items items =>
          let items := map deactivate items in
          match index with
          | Int z =>
              match activate z items with
              | Some (items', i) =>
                  onSidebar (setMessagesHtml (Items items')) >>>
                  scrollIntoView (ScrollToItem i)
              | None => onSidebar (setMessagesHtml (Items items))
              end
          | NaN => onSidebar (setMessagesHtml (Items items))
          end
      | _ => ret tt
      end
  end.

Definition classListRemoveHighlight (el : Element) : M unit :=
  modify (onBrowser (fun b => setHighlighted (highlighted b ∖ {[el]}) b)).

Definition classListAddHighlight (el : Element) : M unit :=
  modify (onBrowser (fun b => setHighlighted (highlighted b ∪ {[el]}) b)).

Definition setTimeout (task : TimerTask) (delay : Z) : M unit :=
  modify (onBrowser (fun b => setTimers (timers b ++ [(delay, task)]) b)).

Definition scrollToMessage (index : Num) : M unit :=
  let* message := getMessageByIndex index in
  match message with
  | None => emit (WarnMessageNotFound index)
  | Some message =>
      (* a record always holds its element: [!message.userElement] is false *)
      let* prev := gets (fun w => highlightedElement (sidebarManager w)) in
      (match prev with
       | Some el => classListRemoveHighlight el
       | None => ret tt
       end) >>>
      scrollIntoView (ScrollToElement (userElement message)) >>>
      classListAddHighlight (userElement message) >>>
      modify (onManager (setHighlightedElement (Some (userElement message)))) >>>
      updateActiveItem index >>>
      setTimeout RemoveHighlight 3000
  end.

(** The callback that [scrollToMessage] hands to [setTimeout]. *)
Definition removeHighlight : M unit :=
  let* cur := gets (fun w => highlightedElement (sidebarManager w)) in
  match cur with
  | Some el =>
      classListRemoveHighlight el >>>
      modify (onManager (setHighlightedElement None))
  | None => ret tt
  end.

(** [chrome.storage.local.set({ sidebarVisible: value })]. *)
Definition storageSet (value : bool) : M unit :=
  modify (onBrowser (fun b =>
            setStorage (<["sidebarVisible"%string := value]> (storage b)) b)).

Definition toggleSidebar : M unit :=
  let* el := gets (fun w => sidebarElement (sidebarManager w)) in
  match el with
  | None => ret tt
  | Some _ =>
      let* visible := gets (fun w => isVisible (sidebarManager w)) in
      modify (onManager (setIsVisible (negb visible))) >>>
      let* visible := gets (fun w => isVisible (sidebarManager w)) in
      onSidebar (setCollapsed (negb visible)) >>>
      onSidebar (setToggleIcon (if visible then minusSign else plusSign)) >>>
      storageSet visible
  end.

Definition show : M unit :=
  let* el := gets (fun w => sidebarElement (sidebarManager w)) in
  (match el with
   | None => createSidebar >>> ret tt
   | Some _ => ret tt
   end) >>>
  modify (onManager (setIsVisible true)) >>>
  onSidebar (setCollapsed false).

Definition hide : M unit :=
  let* el := gets (fun w => sidebarElement (sidebarManager w)) in
  match el with
  | None => ret tt
  | Some _ =>
      modify (onManager (setIsVisible false)) >>>
      onSidebar (setCollapsed true)
  end.

(** ** Notions used by the properties *)

(** [pat] is a substring of [s]. *)
Definition Substring (pat s : jsstring) : Prop :=
  exists pre post, s = pre ++ pat ++ post.

(** One of the URL patterns of [cfg] is a substring of the host name. *)
Definition Matches (host : jsstring) (cfg : PlatformConfig) : Prop :=
  exists pat, In pat (urls cfg) /\ Substring pat host.

(** [p] is the first definition, in registration order, that matches. *)
Definition FirstMatch (host : jsstring)
    (platforms : list (jsstring * PlatformConfig)) (p : Platform) : Prop :=
  exists before after,
    platforms = before ++ (key p, config p) :: after /\
    Matches host (config p) /\
    forall entry, In entry before -> ~ Matches host (snd entry).

Definition NoMatch (host : jsstring)
    (platforms : list (jsstring * PlatformConfig)) : Prop :=
  forall entry, In entry platforms -> ~ Matches host (snd entry).

(** The five reserved characters and their entities. *)
Definition reserved : list N :=
  [Char.amp; Char.lt; Char.gt; Char.quot; Char.apos].

Definition entities : list jsstring :=
  [js "&amp;"; js "&lt;"; js "&gt;"; js "&quot;"; js "&#039;"].

(** Text in which a reserved character occurs only as part of one of the
    five entities. *)
Inductive EntityEncoded : jsstring -> Prop :=
| encoded_nil : EntityEncoded []
| encoded_plain c s :
    ~ In c reserved -> EntityEncoded s -> EntityEncoded (c :: s)
| encoded_entity e s :
    In e entities -> EntityEncoded s -> EntityEncoded (e ++ s).

(** What an HTML parser reads back from entity-encoded text: each of
    the five entities stands for its character. *)
Fixpoint unescapeHtml (s : jsstring) : jsstring :=
  match s with
  | [] => []
  | c :: r =>
      if (c =? Char.amp)%N then
        match r with
        | (97 :: 109 :: 112 :: 59 :: r')%N => Char.amp :: unescapeHtml r'
        | (108 :: 116 :: 59 :: r')%N => Char.lt :: unescapeHtml r'
        | (103 :: 116 :: 59 :: r')%N => Char.gt :: unescapeHtml r'
        | (113 :: 117 :: 111 :: 116 :: 59 :: r')%N =>
            Char.quot :: unescapeHtml r'
        | (35 :: 48 :: 51 :: 57 :: 59 :: r')%N => Char.apos :: unescapeHtml r'
        | _ => c :: unescapeHtml r
        end
      else c :: unescapeHtml r
  end.

(** What [findElements] finds on a page, as a function of the page:
    for an array the matches of its first valid selector that has any,
    for a string all its matches; [None] where the method returns
    [null]. *)
Fixpoint firstMatching (doc : Document) (selectors : list jsstring)
  : option (list Element) :=
  match selectors with
  | [] => None
  | s :: rest =>
      if selectorValid doc s
      then match matchAll doc s with
           | [] => firstMatching doc rest
           | els => Some els
           end
      else firstMatching doc rest
  end.

Definition foundElements (doc : Document) (sel : Selector)
  : option (list Element) :=
  match sel with
  | SelArray l => firstMatching doc l
  | SelString s => if selectorValid doc s then Some (matchAll doc s) else None
  end.

(** The live count of user-message elements for platform [p], the way
    [shouldRefresh] takes it. *)
Definition liveCount (doc : Document) (p : Platform) : nat :=
  if isDeepSeek p then length (matchAll doc (js ".ds-message .fbb737a4"))
  else match foundElements doc (userMessage (selectors (config p))) with
       | Some elements => length elements
       | None => 0
       end.

(** Where a record says its message is: its index and its element. *)
Definition place (m : MessageRecord) : nat * Element :=
  (index m, userElement m).

(** The elements of a node list with their positions, from [first] on. *)
Definition numbered (first : nat) (elements : list Element)
  : list (nat * Element) :=
  zip (seq first (length elements)) elements.

(** Lines added at the end of the console. *)
Definition addLog (entries : list LogEntry) (w : World) : World :=
  onBrowser (fun b => setConsole (console b ++ entries) b) w.

(** No cached record answers to [index]: it is NaN, negative or past
    the end of the list. *)
Definition NoRecordAt (ms : list MessageRecord) (index : Num) : Prop :=
  match index with
  | NaN => True
  | Int z => (z < 0 \/ Z.of_nat (length ms) <= z)%Z
  end.

(** The user-message selectors of the generic path,
    [[userMessage, ...fallback]], as [querySelectorAll] receives them. *)
Definition userSelectorTexts (p : Platform) : list jsstring :=
  selectorText (userMessage (selectors (config p)))
  :: default [] (fallbackUserMessage (selectors (config p))).

(** None of the selectors in [sels] yields an element of [doc]. *)
Definition MatchNothing (doc : Document) (sels : list jsstring) : Prop :=
  forall s, In s sels -> selectorValid doc s = true -> matchAll doc s = [].

(** ** The built-in configuration and sample pages *)

Definition quoted (s : jsstring) : jsstring := [Char.quot] ++ s ++ [Char.quot].

Definition attributeSelector (attribute value : string) : jsstring :=
  js "[" ++ js attribute ++ js "=" ++ quoted (js value) ++ js "]".

Definition mkSelectors (attribute : string) (content : jsstring)
    (scroll : string) : SelectorSet :=
  {| userMessage := SelString (attributeSelector attribute "user");
     assistantMessage := SelString (attributeSelector attribute "assistant");
     messageContent := Some (SelString content);
     scrollContainer := js scroll;
     fallbackUserMessage := None |}.

Definition roleArticle : jsstring := attributeSelector "role" "article".

(** [getDefaultPlatformsConfig().platforms], in the order of its keys. *)
Definition getDefaultPlatformsConfig : list (jsstring * PlatformConfig) :=
  [ (js "chatgpt",
     {| name := js "ChatGPT";
        urls := [js "chat.openai.com"; js "chatgpt.com"];
        selectors := mkSelectors "role" (js "div:first-child") "main" |});
    (js "gemini",
     {| name := js "Google Gemini";
        urls := [js "gemini.google.com"];
        selectors :=
          mkSelectors "data-role" (js ".message-content, " ++ roleArticle)
                      "body" |});
    (js "claude",
     {| name := js "Anthropic Claude";
        urls := [js "claude.ai"];
        selectors :=
          {| userMessage := SelString (js ".user-message");
             assistantMessage := SelString (js ".assistant-message");
             messageContent :=
               Some (SelString (js ".message-text, " ++ roleArticle));
             scrollContainer := js "main";
             fallbackUserMessage := None |} |});
    (js "deepseek",
     {| name := js "DeepSeek";
        urls := [js "chat.deepseek.com"];
        selectors :=
          mkSelectors "data-sender"
                      (js ".ds-message-content, .message-content") "body" |});
    (js "doubao",
     {| name := [23383; 33410; 35910; 21253]%N;
        urls := [js "doubao.com"];
        selectors :=
          mkSelectors "data-type" (js ".message-body, .message-content")
                      "body" |}) ].

(** A page on which [selector] matches one element per entry of
    [texts], element [i] having the [i]-th text; nothing else matches
    and every selector is valid. *)
Definition pageWith (selector : jsstring) (texts : list jsstring) : Document :=
  {| selectorValid := fun _ => true;
     matchAll := fun s =>
       if bool_decide (s = selector) then seq 0 (length texts) else [];
     matchWithin := fun _ _ => None;
     textContent := fun el => texts !! el |}.

(** The state right after the three objects are constructed and the
    configuration [cfg] is loaded, on a page [doc] served from [host] at
    time [t]. *)
Definition startWorld (cfg : option (list (jsstring * PlatformConfig)))
    (host : jsstring) (doc : Document) (t : Z) : World :=
  {| platformDetector := {| platformsConfig := cfg; currentPlatform := None |};
     messageExtractor := {| messages := []; lastExtractTime := 0 |};
     sidebarManager := {| sidebarElement := None; isVisible := true;
                          highlightedElement := None |};
     browser := {| hostname := host; document := doc; now := t;
                   console := []; storage := ∅; highlighted := ∅;
                   scrollLog := []; timers := [] |} |}.

(** The host page rewrites its DOM, and time passes. *)
Definition pageChanges (doc : Document) (t : Z) (w : World) : World :=
  onBrowser (fun b =>
    {| hostname := hostname b; document := doc; now := t;
       console := console b; storage := storage b;
       highlighted := highlighted b; scrollLog := scrollLog b;
       timers := timers b |}) w.

Definition chatgptUser : jsstring := attributeSelector "role" "user".

(** chatgpt.com with two user messages, at time 1000. *)
Definition chatStart : World :=
  startWorld (Some getDefaultPlatformsConfig) (js "chatgpt.com")
             (pageWith chatgptUser [js "Hello world"; js "Bye"]) 1000.

(** The same page once the platform is detected. *)
Definition chatTwoMessages : World := after (detectPlatform chatStart).

(** The same page after both messages were extracted. *)
Definition chatExtracted : World := after (extractMessages chatTwoMessages).

(** Later the conversation is cleared: no user message is left. *)
Definition chatCleared : World :=
  pageChanges (pageWith chatgptUser []) 5000 chatExtracted.

(** A third message arrives half a second after the extraction. *)
Definition chatThird : World :=
  pageChanges (pageWith chatgptUser [js "Hello world"; js "Bye"; js "More"])
              1500 chatExtracted.

(** chatgpt.com where the second of three user elements has only white
    space as its text. *)
Definition chatBlankSecond : World :=
  after (detectPlatform
           (startWorld (Some getDefaultPlatformsConfig) (js "chatgpt.com")
                       (pageWith chatgptUser [js "a"; js "   "; js "b"])
                       1000)).

(** A page of no known platform, five seconds after construction. *)
Definition unknownSite : World :=
  after (detectPlatform
           (startWorld (Some getDefaultPlatformsConfig) (js "example.org")
                       (pageWith chatgptUser [js "hi"]) 5000)).

(** chatgpt.com with the sidebar built and nothing in storage. *)
Definition chatWithSidebar : World := after (createSidebar chatExtracted).

(** ** The remaining methods *)

(** [this.currentPlatform !== null]. *)
Definition isSupportedPlatform : M bool :=
  let* p := gets (fun w => currentPlatform (platformDetector w)) in
  ret match p with
      | Some _ => true
      | None => false
      end.

(** *** The debounced refresh

    [refresh] keeps the identifier of its timer in [this.debounceTimer].
    The page below adds that field and the browser's queue of pending
    refresh timers (identifier and due time) to the world; identifiers
    are handed out in increasing order. *)
Record Page := {
  world : World;
  debounceTimer : option nat;
  refreshTimers : list (nat * Z);
  nextTimerId : nat
}.

(** [clearTimeout(id)]: a null or spent identifier clears nothing. *)
Definition clearTimeout (id : option nat) (queue : list (nat * Z))
  : list (nat * Z) :=
  match id with
  | None => queue
  | Some i => List.filter (fun t => negb (fst t =? i)%nat) queue
  end.

Definition refreshDelay : Z := 500.

Definition refresh (pg : Page) : Page :=
  let queue := clearTimeout (debounceTimer pg) (refreshTimers pg) in
  let id := nextTimerId pg in
  {| world := world pg;
     debounceTimer := Some id;
     refreshTimers := queue ++ [(id, (now (browser (world pg)) + refreshDelay)%Z)];
     nextTimerId := S id |}.

(** The callback that [refresh] hands to [setTimeout]. *)
Definition refreshCallback : M unit := extractMessages >>> updateSidebar.

(** The browser runs the callback of timer [id] once it is due; an
    exception of the callback ends the callback only. *)
Definition fireRefresh (id : nat) (pg : Page) : Page :=
  if existsb (fun t => (fst t =? id)%nat && (snd t <=? now (browser (world pg)))%Z)
             (refreshTimers pg)
  then {| world := after (refreshCallback (world pg));
          debounceTimer := debounceTimer pg;
          refreshTimers := clearTimeout (Some id) (refreshTimers pg);
          nextTimerId := nextTimerId pg |}
  else pg.

Definition destroy (pg : Page) : Page :=
  {| world :=
       match sidebarElement (sidebarManager (world pg)) with
       | Some _ => onManager (setSidebarElement None) (world pg)
       | None => world pg
       end;
     debounceTimer := debounceTimer pg;
     refreshTimers := clearTimeout (debounceTimer pg) (refreshTimers pg);
     nextTimerId := nextTimerId pg |}.

(** A method of the world run on a page. *)
Definition onWorld {A} (m : M A) (pg : Page) : Page :=
  {| world := after (m (world pg));
     debounceTimer := debounceTimer pg;
     refreshTimers := refreshTimers pg;
     nextTimerId := nextTimerId pg |}.

(** The page changes under the script: new DOM, later time. *)
Definition pageChangesOn (doc : Document) (t : Z) (pg : Page) : Page :=
  {| world := pageChanges doc t (world pg);
     debounceTimer := debounceTimer pg;
     refreshTimers := refreshTimers pg;
     nextTimerId := nextTimerId pg |}.

(** The callback of the mutation observer and of the five-second
    interval of the content script. *)
Definition refreshIfNeeded (pg : Page) : Page :=
  match result (shouldRefresh (world pg)) with
  | Normal true => refresh (onWorld shouldRefresh pg)
  | _ => onWorld shouldRefresh pg
  end.

(** *** The message listener of the content script *)

Inductive Response :=
| Success
| Status (platform : jsstring) (messageCount : nat) (sidebarVisible : bool).

(** [platform] is the platform detected at start-up, which the listener
    closes over; [None] means that [sendResponse] is not called. *)
Definition onMessage (platform : Platform) (action : jsstring) (pg : Page)
  : Page * option Response :=
  if bool_decide (action = js "toggleSidebar") then
    (onWorld toggleSidebar pg, Some Success)
  else if bool_decide (action = js "refreshMessages") then
    (refresh pg, Some Success)
  else if bool_decide (action = js "getStatus") then
    (pg, Some (Status (name (config platform))
                      (length (messages (messageExtractor (world pg))))
                      (isVisible (sidebarManager (world pg)))))
  else (pg, None).

(** A page on which the manager has just been constructed. *)
Definition startPage (w : World) : Page :=
  {| world := w; debounceTimer := None; refreshTimers := []; nextTimerId := 1 |}.

(** At most the timer that [debounceTimer] names is pending. *)
Definition OneTimer (pg : Page) : Prop :=
  refreshTimers pg = [] \/
  exists id due, refreshTimers pg = [(id, due)] /\ debounceTimer pg = Some id.

(** [refresh] called after each of the given page changes in turn. *)
Fixpoint refreshEach (changes : list (Document * Z)) (pg : Page) : Page :=
  match changes with
  | [] => pg
  | (doc, t) :: rest => refreshEach rest (refresh (pageChangesOn doc t pg))
  end.

(** The highlight class sits on the tracked element and nowhere else. *)
Definition HighlightTracked (w : World) : Prop :=
  highlighted (browser w)
  = match highlightedElement (sidebarManager w) with
    | Some el => {[ el ]}
    | None => ∅
    end.

(** The rows of the message list, none when it shows a placeholder. *)
Definition rows (w : World) : list MessageItem :=
  match sidebarElement (sidebarManager w) with
  | Some el => match messagesHtml el with
               | Items items => items
               | _ => []
               end
  | None => []
  end.

(** A record as the extraction loops build it: non-empty trimmed text
    and the preview of that text. *)
Definition WellFormed (m : MessageRecord) : Prop :=
  userText m <> [] /\
  trim (userText m) = userText m /\
  preview m = getPreview (userText m) defaultPreviewLength.

(** Everything but the cache, its time stamp and the console agrees. *)
Definition SameOutsideCache (w w' : World) : Prop :=
  platformDetector w' = platformDetector w /\
  sidebarManager w' = sidebarManager w /\
  hostname (browser w') = hostname (browser w) /\
  document (browser w') = document (browser w) /\
  now (browser w') = now (browser w) /\
  storage (browser w') = storage (browser w) /\
  highlighted (browser w') = highlighted (browser w) /\
  scrollLog (browser w') = scrollLog (browser w) /\
  timers (browser w') = timers (browser w).

(** The warnings of a search name invalid selectors of the array. *)
Definition InvalidOf (doc : Document) (l : list jsstring) (entry : LogEntry)
  : Prop :=
  exists s, entry = WarnInvalidSelector s /\ In s l /\
            selectorValid doc s = false.

(** Row [idx] of the list, marked active or not. *)
Definition markedRow (isActive : bool) (idx : nat) (msg : MessageRecord)
  : MessageItem :=
  {| dataIndex := idx;
     title := escapeHtml (userText msg);
     number := idx + 1;
     text := escapeHtml (preview msg);
     active := isActive |}.

(** The list as rendered from the cache [ms] with row [k] active. *)
Definition rowsWithActive (k : nat) (ms : list MessageRecord)
  : list MessageItem :=
  imap (fun j msg => markedRow (j =? k)%nat j msg) ms.

(** What [getPlatformName] answers for a current platform [p]. *)
Definition displayName (p : option Platform) : jsstring :=
  match p with
  | Some p => match name (config p) with
              | [] => js "Unknown Platform"
              | n => n
              end
  | None => js "Unknown Platform"
  end.

(** The sidebar that [updateSidebar] works on: the existing one, or the
    one that [createSidebar] builds. *)
Definition sidebarOrNew (w : World) : SidebarDom :=
  match sidebarElement (sidebarManager w) with
  | Some el => el
  | None => addMessagesListener MessagesClick
              (addToggleListener ToggleClick
                 (setAttached true sidebarTemplate))
  end.


(** The chat page with the sidebar built and the two messages rendered. *)
Definition chatRendered : World := after (updateSidebar chatWithSidebar).

(** The highlight classes of the page once the class is taken from the
    element tracked so far and put on [el]. *)
Definition moveHighlight (w : World) (el : Element) : gset Element :=
  match highlightedElement (sidebarManager w) with
  | Some prev => highlighted (browser w) ∖ {[ prev ]}
  | None => highlighted (browser w)
  end ∪ {[ el ]}.

(** The world of [scrollToMessage] before it turns to the sidebar: the
    message [m] is scrolled to, highlighted and tracked. *)
Definition highlightOn (m : MessageRecord) (w : World) : World :=
  onManager (setHighlightedElement (Some (userElement m)))
    (onBrowser (fun b =>
       setHighlighted (moveHighlight w (userElement m))
         (setScrollLog (scrollLog b ++ [ScrollToElement (userElement m)]) b))
       w).

(** The rendered chat page with no refresh pending. *)
Definition chatPage : Page := startPage chatRendered.

(** The platform that the listener of the chat page closes over. *)
Definition chatgptPlatform : Platform :=
  {| key := js "chatgpt";
     config := {| name := js "ChatGPT";
                  urls := [js "chat.openai.com"; js "chatgpt.com"];
                  selectors := mkSelectors "role" (js "div:first-child")
                                           "main" |} |}.

(** A third message has arrived; a refresh was requested at 1100 and
    the time is now 1600. *)
Definition chatRefreshDue : Page :=
  pageChangesOn (pageWith chatgptUser [js "Hello world"; js "Bye"; js "More"])
    1600
    (refresh (pageChangesOn
                (pageWith chatgptUser [js "Hello world"; js "Bye"; js "More"])
                1100 chatPage)).

(** The sidebar that [createSidebar] builds from its template. *)
Definition builtSidebar : SidebarDom :=
  addMessagesListener MessagesClick
    (addToggleListener ToggleClick (setAttached true sidebarTemplate)).

(** * Properties *)

(** ** Strings *)

Section Strings.

Implicit Types s pat text : jsstring.

Lemma startsWith_prefix s pat :
  startsWith s pat = true <-> exists post, s = pat ++ post.
Proof.
  revert s; induction pat as [|p pat IH]; intros s; simpl.
  - split; [intros _; exists s; reflexivity | reflexivity].
  - destruct s as [|c s].
    + split; [discriminate | intros [post H]; discriminate].
    + rewrite andb_true_iff, N.eqb_eq, IH. split.
      * intros [-> [post ->]]. eauto.
      * intros [post H]. injection H as -> ->. eauto.
Qed.

Lemma includes_substring s pat :
  includes s pat = true <-> Substring pat s.
Proof.
  unfold Substring. induction s as [|c s IH].
  - simpl. rewrite orb_false_r, startsWith_prefix. split.
    + intros [post H]. exists [], post. exact H.
    + intros (pre & post & H). destruct pre; [eauto | discriminate].
  - cbn [includes]. rewrite orb_true_iff, startsWith_prefix, IH. split.
    + intros [[post H] | (pre & post & H)].
      * exists [], post. exact H.
      * exists (c :: pre), post. simpl. now rewrite H.
    + intros (pre & post & H). destruct pre as [|c' pre].
      * left. eauto.
      * right. injection H as _ H. eauto.
Qed.

Lemma trimStart_suffix s : exists pre, s = pre ++ trimStart s.
Proof.
  induction s as [|c s [pre IH]]; simpl.
  - exists []. reflexivity.
  - destruct (isWhiteSpace c).
    + exists (c :: pre). simpl. now rewrite <- IH.
    + exists []. reflexivity.
Qed.

Lemma trimEnd_prefix s : exists post, s = trimEnd s ++ post.
Proof.
  unfold trimEnd. destruct (trimStart_suffix (rev s)) as [pre H].
  exists (rev pre).
  rewrite <- (rev_involutive s), H, rev_app_distr at 1. reflexivity.
Qed.

Lemma trim_infix s : exists pre post, s = pre ++ trim s ++ post.
Proof.
  unfold trim. destruct (trimStart_suffix s) as [pre H].
  destruct (trimEnd_prefix (trimStart s)) as [post H'].
  exists pre, post. now rewrite <- H'.
Qed.

Lemma trim_In s c : In c (trim s) -> In c s.
Proof.
  destruct (trim_infix s) as (pre & post & H). intros Hc.
  rewrite H, !in_app_iff. auto.
Qed.

Lemma trim_length s : (length (trim s) <= length s)%nat.
Proof.
  destruct (trim_infix s) as (pre & post & H).
  rewrite H at 2. rewrite !length_app. lia.
Qed.

Lemma take_In (k : nat) s c : In c (take k s) -> In c s.
Proof.
  intros H. rewrite <- (take_drop k s). apply in_app_iff. now left.
Qed.

Lemma slice0_In s n c : In c (slice0 s n) -> In c s.
Proof. unfold slice0. destruct (n <? 0)%Z; apply take_In. Qed.

Lemma slice0_length s n :
  (0 <= n)%Z -> (length (slice0 s n) <= Z.to_nat n)%nat.
Proof.
  intros Hn. unfold slice0.
  destruct (Z.ltb_spec n 0); [lia|]. rewrite length_take. lia.
Qed.

Lemma stripBackticks_In s c :
  In c (stripBackticks s) <-> In c s /\ c <> Char.backtick.
Proof.
  unfold stripBackticks. rewrite filter_In, negb_true_iff, N.eqb_neq.
  reflexivity.
Qed.

(** After [collapseWhiteSpace] the only white space left is the
    space character. *)
Lemma collapseFrom_In b s c :
  In c (collapseFrom b s) ->
  c = Char.space \/ (In c s /\ isWhiteSpace c = false).
Proof.
  revert b; induction s as [|d s IH]; intros b; simpl; [tauto|].
  destruct (isWhiteSpace d) eqn:Hd.
  - destruct b; simpl; intros H.
    + destruct (IH _ H) as [|[? ?]]; auto.
    + destruct H as [<-|H]; [auto|].
      destruct (IH _ H) as [|[? ?]]; auto.
  - intros [<-|H]; [auto|].
    destruct (IH _ H) as [|[? ?]]; auto.
Qed.

End Strings.

(** ** getPreview *)

Section Preview.

Implicit Types text : jsstring.

Lemma normalized_In text c :
  In c (trim (stripBackticks (collapseWhiteSpace text))) ->
  c <> Char.backtick /\ (isWhiteSpace c = true -> c = Char.space).
Proof.
  intros H. apply trim_In, stripBackticks_In in H as [H Hb].
  split; [exact Hb|]. intros Hw.
  apply collapseFrom_In in H as [H|[_ H]]; [exact H | congruence].
Qed.

Lemma ellipsis_In c : In c ellipsis -> c = 46%N.
Proof. simpl. intuition. Qed.

Lemma getPreview_In text n c :
  In c (getPreview text n) ->
  c <> Char.backtick /\ (isWhiteSpace c = true -> c = Char.space).
Proof.
  unfold getPreview. cbv zeta.
  destruct (_ <=? n)%Z; [exact (normalized_In text c)|].
  rewrite in_app_iff. intros [H|H].
  - apply slice0_In in H. exact (normalized_In text c H).
  - apply ellipsis_In in H as ->. split; [discriminate|discriminate].
Qed.

(** A preview never holds a backtick. *)
Lemma getPreview_no_backtick text n :
  ~ In Char.backtick (getPreview text n).
Proof. intros H. apply getPreview_In in H as [H _]. now apply H. Qed.

(** A preview is at most [n] code units and the ellipsis long: 63 for
    the default of 60. *)
Lemma getPreview_length text n :
  (0 <= n)%Z -> (length (getPreview text n) <= Z.to_nat n + 3)%nat.
Proof.
  intros Hn. unfold getPreview. cbv zeta.
  destruct (Z.leb_spec (Z.of_nat (length
    (trim (stripBackticks (collapseWhiteSpace text))))) n) as [H|H].
  - lia.
  - rewrite length_app. pose proof (slice0_length
      (trim (stripBackticks (collapseWhiteSpace text))) n Hn).
    simpl. lia.
Qed.

Lemma getPreview_default_length text :
  (length (getPreview text defaultPreviewLength) <= 63)%nat.
Proof. apply (getPreview_length text 60). lia. Qed.

(** C7 (the code departs from the claim).  The preview is claimed to
    have every run of white space collapsed to a single space.  White
    space is collapsed before the backticks are taken out, so two runs
    that a backtick kept apart end up side by side: the preview of
    [a ` b] holds two spaces in a row. *)
Theorem getPreview_backtick_between_spaces :
  getPreview (js "a ` b") defaultPreviewLength = js "a  b" /\
  Substring [Char.space; Char.space]
            (getPreview (js "a ` b") defaultPreviewLength).
Proof.
  split; [reflexivity|]. exists (js "a"), (js "b"). reflexivity.
Qed.

End Preview.

(** ** escapeHtml *)

Section Escape.

Implicit Types text s : jsstring.

Lemma escapeChar_cases m :
  (In m reserved /\ In (escapeChar m) entities) \/
  (~ In m reserved /\ escapeChar m = [m]).
Proof.
  unfold escapeChar, reserved, entities.
  destruct (N.eqb_spec m Char.amp) as [->|H1]; [left; simpl; tauto|].
  destruct (N.eqb_spec m Char.lt) as [->|H2]; [left; simpl; tauto|].
  destruct (N.eqb_spec m Char.gt) as [->|H3]; [left; simpl; tauto|].
  destruct (N.eqb_spec m Char.quot) as [->|H4]; [left; simpl; tauto|].
  destruct (N.eqb_spec m Char.apos) as [->|H5]; [left; simpl; tauto|].
  right. split; [|reflexivity]. simpl. intuition congruence.
Qed.

Lemma escapeHtml_cons m text :
  escapeHtml (m :: text) = escapeChar m ++ escapeHtml text.
Proof. reflexivity. Qed.

Lemma escapeHtml_encoded text : EntityEncoded (escapeHtml text).
Proof.
  induction text as [|m text IH]; [constructor|].
  rewrite escapeHtml_cons.
  destruct (escapeChar_cases m) as [[_ H]|[H ->]].
  - now apply encoded_entity.
  - now apply encoded_plain.
Qed.

Lemma entity_chars e c :
  In e entities -> In c e ->
  c <> Char.lt /\ c <> Char.gt /\ c <> Char.quot /\ c <> Char.apos.
Proof.
  unfold entities. simpl.
  intros [<-|[<-|[<-|[<-|[<-|[]]]]]]; simpl; intros H;
    repeat (destruct H as [<-|H]; [repeat split; discriminate|]);
    destruct H.
Qed.

Lemma encoded_no_literal s c :
  EntityEncoded s -> In c s ->
  c <> Char.lt /\ c <> Char.gt /\ c <> Char.quot /\ c <> Char.apos.
Proof.
  induction 1 as [|d s Hd _ IH|e s He _ IH]; simpl.
  - tauto.
  - intros [<-|H]; [|auto]. unfold reserved in Hd. simpl in Hd.
    repeat split; intros ->; apply Hd; tauto.
  - rewrite in_app_iff. intros [H|H]; [|auto].
    eapply entity_chars; eassumption.
Qed.

Lemma unescapeHtml_plain c s :
  c <> Char.amp -> unescapeHtml (c :: s) = c :: unescapeHtml s.
Proof.
  intros H. simpl. destruct (N.eqb_spec c Char.amp); [contradiction|].
  reflexivity.
Qed.

Lemma unescape_escape text : unescapeHtml (escapeHtml text) = text.
Proof.
  induction text as [|m text IH]; [reflexivity|].
  rewrite escapeHtml_cons. unfold escapeChar.
  destruct (N.eqb_spec m Char.amp) as [->|H1];
    [simpl; now rewrite IH|].
  destruct (N.eqb_spec m Char.lt) as [->|H2];
    [simpl; now rewrite IH|].
  destruct (N.eqb_spec m Char.gt) as [->|H3];
    [simpl; now rewrite IH|].
  destruct (N.eqb_spec m Char.quot) as [->|H4];
    [simpl; now rewrite IH|].
  destruct (N.eqb_spec m Char.apos) as [->|H5];
    [simpl; now rewrite IH|].
  change ([m] ++ escapeHtml text) with (m :: escapeHtml text).
  rewrite unescapeHtml_plain by assumption. now rewrite IH.
Qed.

(** C4.  For every input string, [escapeHtml] puts the entity in the
    place of each of the five reserved characters: its output is a
    sequence of entities and unreserved characters, so none of [<],
    [>], the double quote and the apostrophe occurs in it and [&]
    occurs only as the start of an entity; reading the entities back
    gives the input again, so nothing was escaped twice or lost. *)
Theorem escapeHtml_escapes_reserved text :
  EntityEncoded (escapeHtml text) /\
  (forall c, In c [Char.lt; Char.gt; Char.quot; Char.apos] ->
             ~ In c (escapeHtml text)) /\
  unescapeHtml (escapeHtml text) = text.
Proof.
  split; [apply escapeHtml_encoded|]. split; [|apply unescape_escape].
  intros c Hc Hin.
  destruct (encoded_no_literal _ _ (escapeHtml_encoded text) Hin)
    as (H1 & H2 & H3 & H4).
  simpl in Hc. intuition congruence.
Qed.

(** Both texts that [updateSidebar] writes into the markup of a row go
    through [escapeHtml]. *)
Lemma renderItem_encoded idx msg :
  title (renderItem idx msg) = escapeHtml (userText msg) /\
  text (renderItem idx msg) = escapeHtml (preview msg) /\
  EntityEncoded (title (renderItem idx msg)) /\
  EntityEncoded (text (renderItem idx msg)).
Proof. repeat split; apply escapeHtml_encoded. Qed.

End Escape.

(** ** Platform detection *)

Section Detection.

Implicit Types (host : jsstring) (platforms : list (jsstring * PlatformConfig)).

Lemma matches_existsb host cfg :
  existsb (fun urlPattern => includes host urlPattern) (urls cfg) = true
  <-> Matches host cfg.
Proof.
  unfold Matches. rewrite existsb_exists.
  split; intros (pat & Hin & H); exists pat; split; auto;
    now apply includes_substring.
Qed.

Lemma scanPlatforms_first host platforms p :
  scanPlatforms host platforms = Some p <-> FirstMatch host platforms p.
Proof.
  unfold FirstMatch. induction platforms as [|[k c] rest IH]; simpl.
  - split; [discriminate|]. intros (before & after & H & _).
    destruct before; discriminate.
  - destruct (existsb _ (urls c)) eqn:Hm.
    + apply matches_existsb in Hm. split.
      * intros [= <-]. exists [], rest. simpl. repeat split; auto.
      * intros (before & after & H & Hp & Hb).
        destruct before as [|e before].
        -- injection H as -> -> _. now destruct p.
        -- injection H as <- _. exfalso. apply (Hb (k, c)); simpl; auto.
    + assert (~ Matches host c) as Hn.
      { rewrite <- matches_existsb, Hm. discriminate. }
      rewrite IH. split.
      * intros (before & after & -> & Hp & Hb).
        exists ((k, c) :: before), after. repeat split; auto.
        intros entry [<-|Hin]; simpl; auto.
      * intros (before & after & H & Hp & Hb).
        destruct before as [|e before].
        -- injection H as -> -> _. contradiction.
        -- injection H as _ ->. exists before, after.
           repeat split; auto. intros entry Hin. apply Hb. now right.
Qed.

Lemma scanPlatforms_none host platforms :
  scanPlatforms host platforms = None <-> NoMatch host platforms.
Proof.
  unfold NoMatch. induction platforms as [|[k c] rest IH]; simpl.
  - split; [intros _ entry []|reflexivity].
  - destruct (existsb _ (urls c)) eqn:Hm.
    + apply matches_existsb in Hm. split; [discriminate|].
      intros H. exfalso. apply (H (k, c)); auto.
    + assert (~ Matches host c) as Hn.
      { rewrite <- matches_existsb, Hm. discriminate. }
      rewrite IH. split.
      * intros H entry [<-|Hin]; simpl; auto.
      * intros H entry Hin. apply H. now right.
Qed.

(** What [detectPlatform] returns once the configuration is loaded. *)
Lemma detectPlatform_result w platforms :
  platformsConfig (platformDetector w) = Some platforms ->
  result (detectPlatform w)
  = Normal (scanPlatforms (hostname (browser w)) platforms).
Proof.
  intros H. unfold detectPlatform, result, bind, gets. simpl. rewrite H.
  simpl. now destruct (scanPlatforms _ platforms).
Qed.

(** C5.  With the configuration loaded, [detectPlatform] returns a
    platform exactly when it is the first definition, in registration
    order, one of whose URL patterns is a substring of the host name,
    its key being that definition's key; it returns none exactly when
    no pattern of any definition is a substring of the host name. *)
Theorem detectPlatform_first_match w platforms :
  platformsConfig (platformDetector w) = Some platforms ->
  (forall p, result (detectPlatform w) = Normal (Some p)
             <-> FirstMatch (hostname (browser w)) platforms p) /\
  (result (detectPlatform w) = Normal None
   <-> NoMatch (hostname (browser w)) platforms).
Proof.
  intros H. rewrite (detectPlatform_result w platforms H). split.
  - intros p. rewrite <- scanPlatforms_first.
    split; [now intros [= ->] | now intros ->].
  - rewrite <- scanPlatforms_none.
    split; [now intros [= ->] | now intros ->].
Qed.

End Detection.

(** An instance of C5: chatgpt.com with the built-in configuration. *)
Lemma detectPlatform_first_match_chatgpt :
  (forall p, result (detectPlatform chatStart) = Normal (Some p)
             <-> FirstMatch (js "chatgpt.com") getDefaultPlatformsConfig p) /\
  (result (detectPlatform chatStart) = Normal None
   <-> NoMatch (js "chatgpt.com") getDefaultPlatformsConfig).
Proof.
  exact (detectPlatform_first_match chatStart getDefaultPlatformsConfig
           eq_refl).
Defined.

(** ** Running the methods *)

Section Running.

Implicit Types (w : World) (doc : Document).

Lemma addLog_nil w : addLog [] w = w.
Proof.
  destruct w as [pd ex sm []]. unfold addLog, onBrowser, setConsole. simpl.
  now rewrite app_nil_r.
Qed.

Lemma addLog_app l1 l2 w : addLog l2 (addLog l1 w) = addLog (l1 ++ l2) w.
Proof.
  unfold addLog, onBrowser, setConsole. simpl. now rewrite app_assoc.
Qed.

Lemma emit_run entry w : emit entry w = (Normal tt, addLog [entry] w).
Proof. reflexivity. Qed.

(** [findFirst] returns what [firstMatching] describes and touches
    nothing but the console. *)
Lemma findFirst_run l w :
  exists extra,
    findFirst l w
    = (Normal (firstMatching (document (browser w)) l), addLog extra w).
Proof.
  revert w. induction l as [|s rest IH]; intros w.
  - exists []. now rewrite addLog_nil.
  - cbn [findFirst firstMatching].
    unfold bind, tryCatch, querySelectorAll, bind, gets, ret, throw.
    destruct (selectorValid (document (browser w)) s) eqn:Hv.
    + destruct (matchAll (document (browser w)) s) as [|e es] eqn:Hm.
      * simpl. apply IH.
      * simpl. exists []. now rewrite addLog_nil.
    + rewrite emit_run. destruct (IH (addLog [WarnInvalidSelector s] w))
        as [extra H].
      rewrite H, addLog_app. eauto.
Qed.

Lemma findElements_run sel w :
  exists extra,
    findElements sel w
    = (Normal (foundElements (document (browser w)) sel), addLog extra w).
Proof.
  destruct sel as [s|l]; [|apply findFirst_run].
  unfold findElements, foundElements, tryCatch, querySelectorAll,
    bind, gets, ret, throw.
  destruct (selectorValid (document (browser w)) s).
  - exists []. now rewrite addLog_nil.
  - rewrite emit_run. eauto.
Qed.

Lemma firstMatching_nothing doc l :
  MatchNothing doc l -> firstMatching doc l = None.
Proof.
  unfold MatchNothing. induction l as [|s rest IH]; intros H; simpl.
  - reflexivity.
  - destruct (selectorValid doc s) eqn:Hv.
    + rewrite (H s) by (simpl; auto). apply IH. intros; apply H; simpl; auto.
    + apply IH. intros; apply H; simpl; auto.
Qed.

End Running.

(** ** Extraction *)

Section Extraction.

Implicit Types (w : World) (p : Platform).

(** The generic path when [findElements] comes back empty-handed. *)
Lemma extractMessages_generic_none w p :
  currentPlatform (platformDetector w) = Some p ->
  isDeepSeek p = false ->
  firstMatching (document (browser w)) (userSelectorTexts p) = None ->
  exists extra, extractMessages w = (Normal [], addLog extra w).
Proof.
  intros Hp Hds Hnone.
  destruct (findElements_run (SelArray (userSelectorTexts p)) w)
    as [extra Hrun].
  cbn [foundElements] in Hrun. rewrite Hnone in Hrun.
  exists (extra ++ [WarnNoUserMessages]).
  unfold extractMessages, getPlatformConfig, bind at 1, gets.
  rewrite Hp, Hds. cbv zeta. unfold bind at 1.
  fold (userSelectorTexts p). rewrite Hrun.
  unfold bind, ret. rewrite emit_run, addLog_app. reflexivity.
Qed.

Lemma extractMessages_no_platform w :
  currentPlatform (platformDetector w) = None ->
  extractMessages w = (Normal [], addLog [WarnPlatformNotDetected] w).
Proof.
  intros Hp. unfold extractMessages, getPlatformConfig, bind at 1, gets.
  rewrite Hp. reflexivity.
Qed.

(** C10.  When no platform is detected, or on the generic path when
    the user-message selectors match no element, [extractMessages]
    returns the empty list and leaves the cached message list and the
    time of the last extraction as they were. *)
Theorem extractMessages_empty_keeps_cache w :
  (currentPlatform (platformDetector w) = None \/
   exists p, currentPlatform (platformDetector w) = Some p /\
             isDeepSeek p = false /\
             MatchNothing (document (browser w)) (userSelectorTexts p)) ->
  result (extractMessages w) = Normal [] /\
  messages (messageExtractor (after (extractMessages w)))
  = messages (messageExtractor w) /\
  lastExtractTime (messageExtractor (after (extractMessages w)))
  = lastExtractTime (messageExtractor w).
Proof.
  intros [Hp|(p & Hp & Hds & Hnone)].
  - rewrite (extractMessages_no_platform w Hp). auto.
  - apply firstMatching_nothing in Hnone.
    destruct (extractMessages_generic_none w p Hp Hds Hnone) as [extra ->].
    auto.
Qed.

(** An instance of C10: the chat page after its conversation was
    cleared; two records are cached and the selectors match nothing any
    more. *)
Lemma extractMessages_empty_keeps_cache_cleared :
  result (extractMessages chatCleared) = Normal [] /\
  messages (messageExtractor (after (extractMessages chatCleared)))
  = messages (messageExtractor chatCleared) /\
  lastExtractTime (messageExtractor (after (extractMessages chatCleared)))
  = lastExtractTime (messageExtractor chatCleared).
Proof.
  apply extractMessages_empty_keeps_cache. right.
  eexists. split; [reflexivity|]. split; [reflexivity|].
  intros s Hs _. unfold chatCleared, pageChanges, pageWith. simpl.
  now destruct (bool_decide _).
Defined.

(** C1 (the code departs from the claim).  After the page lost all its
    user messages the live count is zero, yet re-running
    [extractMessages] on the generic path returns the empty list and
    keeps both records of the previous pass in the stored collection. *)
Theorem extractMessages_keeps_stale_records :
  length (messages (messageExtractor chatCleared)) = 2%nat /\
  (exists p, currentPlatform (platformDetector chatCleared) = Some p /\
             liveCount (document (browser chatCleared)) p = 0%nat) /\
  result (extractMessages chatCleared) = Normal [] /\
  length (messages (messageExtractor (after (extractMessages chatCleared))))
  = 2%nat /\
  messages (messageExtractor (after (extractMessages chatCleared)))
  = messages (messageExtractor chatExtracted).
Proof.
  split; [reflexivity|]. split; [eexists; split; reflexivity|].
  repeat split; reflexivity.
Qed.

(** C2 (the code departs from the claim).  On the generic path a
    record carries the position of its element in the node list, not its
    position among the records: with three user elements of which the
    second holds only white space, the two records have the indices 0
    and 2. *)
Theorem extractMessages_index_gap :
  exists ms,
    result (extractMessages chatBlankSecond) = Normal ms /\
    length ms = 2%nat /\
    map index ms = [0; 2]%nat /\
    map userElement ms = [0; 2]%nat.
Proof. eexists. repeat split; reflexivity. Qed.

End Extraction.

(** ** shouldRefresh *)

Section Refresh.

Implicit Types (w : World) (p : Platform).

Lemma shouldRefresh_run w p :
  currentPlatform (platformDetector w) = Some p ->
  exists extra,
    shouldRefresh w
    = (Normal ((2000 <? now (browser w)
                        - lastExtractTime (messageExtractor w))%Z
               || negb (liveCount (document (browser w)) p
                        =? length (messages (messageExtractor w)))%nat),
       addLog extra w).
Proof.
  intros Hp. unfold shouldRefresh, getPlatformConfig, bind at 1, gets.
  rewrite Hp. unfold liveCount. destruct (isDeepSeek p).
  - exists []. now rewrite addLog_nil.
  - destruct (findElements_run (userMessage (selectors (config p))) w)
      as [extra Hrun].
    exists extra. unfold bind, gets, ret. rewrite Hrun. reflexivity.
Qed.

(** C6, amended.  When a platform is detected, [shouldRefresh] returns
    true exactly if more than 2000 ms have passed since the last
    extraction or the live count of user-message elements differs from
    the number of cached records; when no platform is detected it
    returns false. *)
Theorem shouldRefresh_when_detected w :
  match currentPlatform (platformDetector w) with
  | Some p =>
      exists b,
        result (shouldRefresh w) = Normal b /\
        (b = true <->
         (2000 < now (browser w) - lastExtractTime (messageExtractor w))%Z \/
         liveCount (document (browser w)) p
         <> length (messages (messageExtractor w)))
  | None => result (shouldRefresh w) = Normal false
  end.
Proof.
  destruct (currentPlatform (platformDetector w)) as [p|] eqn:Hp.
  - destruct (shouldRefresh_run w p Hp) as [extra ->].
    eexists. split; [reflexivity|].
    rewrite orb_true_iff, negb_true_iff, Z.ltb_lt, Nat.eqb_neq. reflexivity.
  - unfold shouldRefresh, getPlatformConfig, bind, gets. now rewrite Hp.
Qed.

(** Against C6 as stated, where no platform is detected: five seconds
    after the last extraction [shouldRefresh] still returns false. *)
Lemma shouldRefresh_unknown_site_false :
  ~ ((2000 < now (browser unknownSite)
             - lastExtractTime (messageExtractor unknownSite))%Z ->
     result (shouldRefresh unknownSite) = Normal true).
Proof.
  intros H. assert (2000 < 5000 - 0)%Z as Hlt by lia.
  specialize (H Hlt). discriminate H.
Qed.

(** The scenario of the specification: three live elements against two
    cached records, half a second after the extraction. *)
Example shouldRefresh_count_changed :
  (now (browser chatThird) - lastExtractTime (messageExtractor chatThird)
   = 500)%Z /\
  length (messages (messageExtractor chatThird)) = 2%nat /\
  (exists p, currentPlatform (platformDetector chatThird) = Some p /\
             liveCount (document (browser chatThird)) p = 3%nat) /\
  result (shouldRefresh chatThird) = Normal true.
Proof.
  split; [reflexivity|]. split; [reflexivity|].
  split; [eexists; split; reflexivity | reflexivity].
Qed.

End Refresh.

(** ** The sidebar *)

Section Sidebar.

Implicit Types (w : World) (index : Num).

Lemma lookupMessage_absent (ms : list MessageRecord) index :
  NoRecordAt ms index <-> lookupMessage ms index = None.
Proof.
  destruct index as [|z]; simpl; [tauto|].
  destruct (Z.leb_spec 0 z) as [Hz|Hz].
  - rewrite lookup_ge_None. lia.
  - split; auto.
Qed.

Lemma scrollToMessage_absent w index :
  NoRecordAt (messages (messageExtractor w)) index ->
  scrollToMessage index w
  = (Normal tt, addLog [WarnMessageNotFound index] w).
Proof.
  intros H. apply lookupMessage_absent in H.
  unfold scrollToMessage, getMessageByIndex, bind, gets, ret. now rewrite H.
Qed.

(** C8.  For an index with no cached record (NaN, negative or out of
    range) [scrollToMessage] returns after logging one warning: the
    sidebar with its DOM, the tracked highlight, the highlight classes
    on the page, the scroll requests, the timers, the storage and the
    cache are what they were. *)
Theorem scrollToMessage_absent_noop w index :
  NoRecordAt (messages (messageExtractor w)) index ->
  result (scrollToMessage index w) = Normal tt /\
  sidebarManager (after (scrollToMessage index w)) = sidebarManager w /\
  messageExtractor (after (scrollToMessage index w)) = messageExtractor w /\
  platformDetector (after (scrollToMessage index w)) = platformDetector w /\
  scrollLog (browser (after (scrollToMessage index w)))
  = scrollLog (browser w) /\
  highlighted (browser (after (scrollToMessage index w)))
  = highlighted (browser w) /\
  timers (browser (after (scrollToMessage index w))) = timers (browser w) /\
  storage (browser (after (scrollToMessage index w)))
  = storage (browser w) /\
  console (browser (after (scrollToMessage index w)))
  = console (browser w) ++ [WarnMessageNotFound index].
Proof.
  intros H. rewrite (scrollToMessage_absent w index H).
  repeat split; reflexivity.
Qed.

(** An instance of C8: index 5 with two cached records. *)
Lemma scrollToMessage_absent_noop_out_of_range :
  result (scrollToMessage (Int 5) chatWithSidebar) = Normal tt /\
  sidebarManager (after (scrollToMessage (Int 5) chatWithSidebar))
  = sidebarManager chatWithSidebar /\
  messageExtractor (after (scrollToMessage (Int 5) chatWithSidebar))
  = messageExtractor chatWithSidebar /\
  platformDetector (after (scrollToMessage (Int 5) chatWithSidebar))
  = platformDetector chatWithSidebar /\
  scrollLog (browser (after (scrollToMessage (Int 5) chatWithSidebar)))
  = scrollLog (browser chatWithSidebar) /\
  highlighted (browser (after (scrollToMessage (Int 5) chatWithSidebar)))
  = highlighted (browser chatWithSidebar) /\
  timers (browser (after (scrollToMessage (Int 5) chatWithSidebar)))
  = timers (browser chatWithSidebar) /\
  storage (browser (after (scrollToMessage (Int 5) chatWithSidebar)))
  = storage (browser chatWithSidebar) /\
  console (browser (after (scrollToMessage (Int 5) chatWithSidebar)))
  = console (browser chatWithSidebar) ++ [WarnMessageNotFound (Int 5)].
Proof.
  apply (scrollToMessage_absent_noop chatWithSidebar (Int 5)).
  right. simpl. lia.
Defined.

(** The sidebar as [createSidebar] leaves it: appended to the body,
    with one click listener on the toggle button and one on the message
    list. *)
Lemma createSidebar_builds w :
  sidebarElement (sidebarManager w) = None ->
  createSidebar w
  = (Normal (Some (addMessagesListener MessagesClick
                     (addToggleListener ToggleClick
                        (setAttached true sidebarTemplate)))),
     onManager (setSidebarElement
                  (Some (addMessagesListener MessagesClick
                           (addToggleListener ToggleClick
                              (setAttached true sidebarTemplate))))) w).
Proof.
  intros H. unfold createSidebar, bind at 1, gets. rewrite H.
  destruct w as [pd ex sm br]. reflexivity.
Qed.

Lemma createSidebar_existing w el :
  sidebarElement (sidebarManager w) = Some el ->
  createSidebar w = (Normal (Some el), w).
Proof.
  intros H. unfold createSidebar, bind, gets. now rewrite H.
Qed.

(** C9.  [createSidebar] on a manager that has its sidebar returns that
    sidebar and changes nothing; on one that has none it builds the
    sidebar, appends it to the body, attaches each of the two listeners
    once and changes nothing else.  Either way a second call returns
    the same sidebar and changes nothing. *)
Theorem createSidebar_idempotent w :
  match sidebarElement (sidebarManager w) with
  | Some el => createSidebar w = (Normal (Some el), w)
  | None =>
      exists el,
        createSidebar w
        = (Normal (Some el), onManager (setSidebarElement (Some el)) w) /\
        attached el = true /\
        toggleListeners el = [ToggleClick] /\
        messagesListeners el = [MessagesClick]
  end /\
  createSidebar (after (createSidebar w))
  = (result (createSidebar w), after (createSidebar w)).
Proof.
  destruct (sidebarElement (sidebarManager w)) as [el|] eqn:H.
  - rewrite (createSidebar_existing w el H). split; [reflexivity|].
    simpl. now rewrite (createSidebar_existing w el H).
  - rewrite (createSidebar_builds w H). split.
    + eexists. split; [reflexivity|]. repeat split; reflexivity.
    + simpl. now erewrite createSidebar_existing by reflexivity.
Qed.

Lemma toggleSidebar_run w el :
  sidebarElement (sidebarManager w) = Some el ->
  result (toggleSidebar w) = Normal tt /\
  isVisible (sidebarManager (after (toggleSidebar w)))
  = negb (isVisible (sidebarManager w)) /\
  storage (browser (after (toggleSidebar w)))
  = <["sidebarVisible"%string := negb (isVisible (sidebarManager w))]>
      (storage (browser w)) /\
  (collapsed <$> sidebarElement (sidebarManager (after (toggleSidebar w))))
  = Some (isVisible (sidebarManager w)).
Proof.
  intros H. unfold toggleSidebar, result, after, bind, gets. simpl.
  rewrite H. simpl. rewrite H. simpl. rewrite negb_involutive.
  repeat split; reflexivity.
Qed.

(** C3, amended.  [toggleSidebar] on a built sidebar flips [isVisible]
    and writes the new value to storage under [sidebarVisible]; without
    a sidebar it does nothing.  [show] sets [isVisible] and [hide], on a
    built sidebar, clears it, and neither writes to storage. *)
Theorem visibility_and_storage w :
  match sidebarElement (sidebarManager w) with
  | Some _ =>
      isVisible (sidebarManager (after (toggleSidebar w)))
      = negb (isVisible (sidebarManager w)) /\
      storage (browser (after (toggleSidebar w)))
      = <["sidebarVisible"%string := negb (isVisible (sidebarManager w))]>
          (storage (browser w)) /\
      isVisible (sidebarManager (after (hide w))) = false
  | None => after (toggleSidebar w) = w /\ after (hide w) = w
  end /\
  isVisible (sidebarManager (after (show w))) = true /\
  storage (browser (after (show w))) = storage (browser w) /\
  storage (browser (after (hide w))) = storage (browser w).
Proof.
  destruct (sidebarElement (sidebarManager w)) as [el|] eqn:H.
  - destruct (toggleSidebar_run w el H) as (_ & Hv & Hs & _).
    unfold hide, show, bind, gets. rewrite H. auto.
  - unfold toggleSidebar, hide, show, bind, gets. rewrite H.
    rewrite (createSidebar_builds w H). auto.
Qed.

(** Against C3 as stated, for [hide] (and likewise [show]): nothing is
    written, the key is still absent from storage afterwards. *)
Lemma hide_writes_nothing :
  ~ (storage (browser (after (hide chatWithSidebar)))
       !! "sidebarVisible"%string
     = Some (isVisible (sidebarManager (after (hide chatWithSidebar))))).
Proof. vm_compute. discriminate. Qed.

End Sidebar.

(** ** Order and indices of the records *)

Section Order.

Implicit Types (w : World) (p : Platform) (ms acc : list MessageRecord).

Lemma sublist_full {A} (l1 l2 : list A) :
  sublist l1 l2 -> (length l2 <= length l1)%nat -> l1 = l2.
Proof.
  induction 1 as [|x l1 l2 _ IH|x l1 l2 Hs _]; simpl; intros Hlen.
  - reflexivity.
  - f_equal. apply IH. lia.
  - apply sublist_length in Hs. lia.
Qed.

(** Generic path: the records built by the loop are, in order, some of
    the elements of the node list, each with its position in that
    list. *)
Lemma collectMessages_order cs els i acc w ms w' :
  collectMessages cs els i acc w = (Normal ms, w') ->
  exists new, ms = acc ++ new /\ sublist (map place new) (numbered i els).
Proof.
  revert i acc w. induction els as [|e els IH]; intros i acc w.
  - intros [= <- _]. exists []. split; [now rewrite app_nil_r|constructor].
  - cbn [collectMessages]. unfold bind at 1.
    destruct (extractText e cs w) as [[t|ex] w1]; [|discriminate].
    unfold bind at 1, gets. cbv zeta. intros H. apply IH in H as (new & -> & Hs).
    unfold numbered. cbn [length seq zip zip_with].
    destruct (0 <? length t)%nat.
    + exists (mkRecord i t e (now (browser w1)) :: new).
      split; [now rewrite <- app_assoc|]. now apply sublist_skip.
    + exists new. split; [reflexivity|]. now apply sublist_cons.
Qed.

Lemma numbered_fst i els : map fst (numbered i els) = seq i (length els).
Proof. unfold numbered. apply fst_zip. now rewrite length_seq. Qed.

Lemma numbered_snd i els : map snd (numbered i els) = els.
Proof. unfold numbered. apply snd_zip. now rewrite length_seq. Qed.

(** When no element was skipped, the indices are [i], [i+1], ... *)
Lemma collectMessages_dense cs els i w ms w' :
  collectMessages cs els i [] w = (Normal ms, w') ->
  length ms = length els ->
  map index ms = seq i (length els) /\ map userElement ms = els.
Proof.
  intros H Hlen. apply collectMessages_order in H as (new & -> & Hs).
  simpl in *. apply sublist_full in Hs.
  - split.
    + rewrite <- numbered_fst, <- Hs, map_map. reflexivity.
    + transitivity (map snd (numbered i els)); [|apply numbered_snd].
      rewrite <- Hs, map_map. reflexivity.
  - unfold numbered.
    rewrite length_map, length_zip_with, length_seq. lia.
Qed.

(** DeepSeek path: the loop touches nothing, never throws, and numbers
    the records it adds consecutively. *)
Lemma collectDeepSeek_run els acc w :
  exists new,
    collectDeepSeek els acc w = (Normal (acc ++ new), w) /\
    map index new = seq (length acc) (length new).
Proof.
  revert acc. induction els as [|e els IH]; intros acc.
  - exists []. split; [now rewrite app_nil_r|reflexivity].
  - cbn [collectDeepSeek].
    unfold bind at 1, querySelectorLiteral, gets.
    destruct (matchWithin (document (browser w)) e (js ".fbb737a4"))
      as [content|]; [|apply IH].
    unfold bind at 1, trimmedText, bind at 1, gets, ret.
    unfold bind at 1. cbv zeta.
    destruct (0 <? length _)%nat; [|apply IH].
    match goal with
    | |- context [collectDeepSeek els (acc ++ [?r]) w] =>
        destruct (IH (acc ++ [r])) as (new & -> & Hn); exists (r :: new)
    end.
    split; [now rewrite <- app_assoc|].
    rewrite length_app in Hn. simpl in *. rewrite Nat.add_1_r in Hn.
    now rewrite Hn.
Qed.

Lemma extractMessagesForDeepSeek_run w :
  exists ms,
    extractMessagesForDeepSeek w
    = (Normal ms,
       addLog [LogDeepSeekExtracted (length ms)]
         (onExtractor (setLastExtractTime (now (browser w)))
            (onExtractor (setMessages ms) w))) /\
    map index ms = seq 0 (length ms).
Proof.
  destruct (collectDeepSeek_run
              (matchAll (document (browser w)) (js ".ds-message")) [] w)
    as (new & Hrun & Hidx).
  exists new. split; [|exact Hidx].
  unfold extractMessagesForDeepSeek, bind at 1, querySelectorAllLiteral, gets.
  unfold bind at 1. rewrite Hrun. reflexivity.
Qed.

(** On the DeepSeek path every pass stores what it returns, and the
    indices are dense. *)
Lemma extractMessagesForDeepSeek_dense w :
  exists ms,
    result (extractMessagesForDeepSeek w) = Normal ms /\
    messages (messageExtractor (after (extractMessagesForDeepSeek w))) = ms /\
    lastExtractTime (messageExtractor (after (extractMessagesForDeepSeek w)))
    = now (browser w) /\
    map index ms = seq 0 (length ms).
Proof.
  destruct (extractMessagesForDeepSeek_run w) as (ms & -> & Hidx).
  exists ms. repeat split; [reflexivity..|exact Hidx].
Qed.

Lemma firstMatching_some doc l els :
  firstMatching doc l = Some els -> els <> [].
Proof.
  induction l as [|s rest IH]; simpl; [discriminate|].
  destruct (selectorValid doc s); [|exact IH].
  destruct (matchAll doc s) eqn:Hm; [exact IH|].
  intros [= <-]. discriminate.
Qed.

(** On the generic path a pass that finds elements and does not throw
    stores what it returns; its records follow the node list in order,
    each carrying its position there, so the indices are [0..N-1]
    exactly when none of the [N] elements was skipped for empty text. *)
Lemma extractMessages_generic_found w p els ms w' :
  currentPlatform (platformDetector w) = Some p ->
  isDeepSeek p = false ->
  firstMatching (document (browser w)) (userSelectorTexts p) = Some els ->
  extractMessages w = (Normal ms, w') ->
  messages (messageExtractor w') = ms /\
  sublist (map place ms) (numbered 0 els) /\
  (length ms = length els ->
   map index ms = seq 0 (length els) /\ map userElement ms = els).
Proof.
  intros Hp Hds Hsome.
  destruct (findElements_run (SelArray (userSelectorTexts p)) w)
    as [extra Hrun].
  cbn [foundElements] in Hrun. rewrite Hsome in Hrun.
  pose proof (firstMatching_some _ _ _ Hsome) as Hne.
  destruct els as [|e es]; [contradiction|].
  unfold extractMessages, getPlatformConfig, bind at 1, gets.
  rewrite Hp, Hds. cbv zeta. unfold bind at 1.
  fold (userSelectorTexts p). rewrite Hrun.
  unfold bind at 1.
  destruct (collectMessages _ (e :: es) 0 [] (addLog extra w))
    as [[ms0|ex] w1] eqn:Hc; [|discriminate].
  intros [= <- <-]. split; [reflexivity|]. split.
  - apply collectMessages_order in Hc as (new & -> & Hs). exact Hs.
  - intros Hlen. eapply collectMessages_dense; eassumption.
Qed.

End Order.


(** * Further properties of the code *)

(** ** Trimming, previews and escaping *)

Section MoreStrings.

Implicit Types s text : jsstring.

Lemma trimStart_app_plain r h t :
  isWhiteSpace h = false -> trimStart (r ++ h :: t) = trimStart r ++ h :: t.
Proof.
  intros Hh. induction r as [|c r IH]; simpl.
  - now rewrite Hh.
  - destruct (isWhiteSpace c); [exact IH | reflexivity].
Qed.

Lemma trimStart_head s :
  match trimStart s with
  | [] => True
  | c :: _ => isWhiteSpace c = false
  end.
Proof.
  induction s as [|c s IH]; simpl; [exact I|].
  destruct (isWhiteSpace c) eqn:Hc; [exact IH | exact Hc].
Qed.

Lemma trimStart_idem s : trimStart (trimStart s) = trimStart s.
Proof.
  pose proof (trimStart_head s) as H.
  destruct (trimStart s) as [|c r]; [reflexivity|]. simpl. now rewrite H.
Qed.

Lemma trimEnd_cons_plain h t :
  isWhiteSpace h = false -> trimEnd (h :: t) = h :: trimEnd t.
Proof.
  intros Hh. unfold trimEnd. cbn [rev].
  change (rev t ++ [h]) with (rev t ++ h :: []).
  rewrite trimStart_app_plain by exact Hh.
  now rewrite rev_app_distr.
Qed.

Lemma trimEnd_idem s : trimEnd (trimEnd s) = trimEnd s.
Proof. unfold trimEnd. now rewrite rev_involutive, trimStart_idem. Qed.

Lemma trim_shape s :
  trim s = [] \/
  exists h t, trimStart s = h :: t /\ isWhiteSpace h = false /\
              trim s = h :: trimEnd t.
Proof.
  unfold trim. pose proof (trimStart_head s) as H.
  destruct (trimStart s) as [|h t]; [now left|]. right.
  exists h, t. repeat split; auto. now apply trimEnd_cons_plain.
Qed.

(** Trimming what is trimmed changes nothing. *)
Lemma trim_idem s : trim (trim s) = trim s.
Proof.
  destruct (trim_shape s) as [->|(h & t & _ & Hh & ->)]; [reflexivity|].
  unfold trim at 1. simpl. rewrite Hh.
  rewrite trimEnd_cons_plain by exact Hh. now rewrite trimEnd_idem.
Qed.

Lemma collapseFrom_length b s :
  (length (collapseFrom b s) <= length s)%nat.
Proof.
  revert b. induction s as [|c s IH]; intros b; simpl; [lia|].
  destruct (isWhiteSpace c); [destruct b|]; simpl;
    try (pose proof (IH true)); try (pose proof (IH false)); lia.
Qed.

Lemma normalized_length text :
  (length (trim (stripBackticks (collapseWhiteSpace text))) <= length text)%nat.
Proof.
  etransitivity; [apply trim_length|].
  etransitivity; [apply filter_length_le|]. apply collapseFrom_length.
Qed.

(** X1.  A preview of limit [n] has at most [n] code units and an ellipsis,
    holds no backtick, and its only white space is the space
    character. *)
Theorem getPreview_bounded text n :
  (0 <= n)%Z ->
  (length (getPreview text n) <= Z.to_nat n + 3)%nat /\
  ~ In Char.backtick (getPreview text n) /\
  (forall c, In c (getPreview text n) -> isWhiteSpace c = true ->
             c = Char.space).
Proof.
  intros Hn. split; [now apply getPreview_length|].
  split; [apply getPreview_no_backtick|].
  intros c Hc. now apply getPreview_In in Hc.
Qed.

(** An instance of X1. *)
Lemma getPreview_bounded_default :
  (length (getPreview (js "  what `is`   this?  ") 60) <= 63)%nat /\
  ~ In Char.backtick (getPreview (js "  what `is`   this?  ") 60) /\
  (forall c, In c (getPreview (js "  what `is`   this?  ") 60) ->
             isWhiteSpace c = true -> c = Char.space).
Proof.
  apply (getPreview_bounded (js "  what `is`   this?  ") 60). lia.
Defined.

(** X2.  A text that fits the limit gets no ellipsis: its preview is the
    normalised text, trimmed at both ends and no longer than the text. *)
Theorem getPreview_short text n :
  (Z.of_nat (length text) <= n)%Z ->
  getPreview text n = trim (stripBackticks (collapseWhiteSpace text)) /\
  trim (getPreview text n) = getPreview text n /\
  (length (getPreview text n) <= length text)%nat.
Proof.
  intros Hn. pose proof (normalized_length text) as Hl.
  assert (getPreview text n = trim (stripBackticks (collapseWhiteSpace text)))
    as ->.
  { unfold getPreview. cbv zeta.
    destruct (Z.leb_spec (Z.of_nat (length
      (trim (stripBackticks (collapseWhiteSpace text))))) n); [reflexivity|].
    lia. }
  split; [reflexivity|]. split; [apply trim_idem | exact Hl].
Qed.

(** An instance of X2. *)
Lemma getPreview_short_hello :
  getPreview (js " Hello   world ") 60
  = trim (stripBackticks (collapseWhiteSpace (js " Hello   world "))) /\
  trim (getPreview (js " Hello   world ") 60)
  = getPreview (js " Hello   world ") 60 /\
  (length (getPreview (js " Hello   world ") 60)
   <= length (js " Hello   world "))%nat.
Proof.
  apply (getPreview_short (js " Hello   world ") 60). simpl. lia.
Defined.

Lemma escapeChar_length m :
  (1 <= length (escapeChar m) <= 6)%nat /\
  (In m reserved -> (4 <= length (escapeChar m))%nat).
Proof.
  unfold escapeChar, reserved.
  destruct (N.eqb_spec m Char.amp) as [->|H1]; [simpl; lia|].
  destruct (N.eqb_spec m Char.lt) as [->|H2]; [simpl; lia|].
  destruct (N.eqb_spec m Char.gt) as [->|H3]; [simpl; lia|].
  destruct (N.eqb_spec m Char.quot) as [->|H4]; [simpl; lia|].
  destruct (N.eqb_spec m Char.apos) as [->|H5]; [simpl; lia|].
  split; [simpl; lia|]. simpl. intuition congruence.
Qed.

(** X3.  [escapeHtml] works character by character: it distributes over
    concatenation, never shortens a text and makes it at most six times
    as long. *)
Theorem escapeHtml_app_length text s :
  escapeHtml (text ++ s) = escapeHtml text ++ escapeHtml s /\
  (length text <= length (escapeHtml text) <= 6 * length text)%nat.
Proof.
  split; [apply flat_map_app|].
  induction text as [|m text IH]; [simpl; lia|].
  rewrite escapeHtml_cons, length_app. simpl length.
  pose proof (escapeChar_length m) as [H _]. lia.
Qed.

(** X4.  [escapeHtml] leaves a text as it is exactly when the text holds
    none of the five reserved characters. *)
Theorem escapeHtml_unchanged_iff text :
  escapeHtml text = text <-> (forall c, In c text -> ~ In c reserved).
Proof.
  split.
  - intros Heq. apply (f_equal (@length N)) in Heq.
    induction text as [|m text IH]; [intros c []|].
    rewrite escapeHtml_cons, length_app in Heq. simpl length in Heq.
    pose proof (escapeChar_length m) as [H1 H4].
    pose proof (proj2 (escapeHtml_app_length text [])) as Hl.
    intros c [<-|Hc].
    + intros Hr. specialize (H4 Hr). lia.
    + apply IH; [lia | exact Hc].
  - intros H. induction text as [|m text IH]; [reflexivity|].
    rewrite escapeHtml_cons.
    destruct (escapeChar_cases m) as [[Hr _]|[_ ->]].
    + exfalso. apply (H m); simpl; auto.
    + simpl. f_equal. apply IH. intros c Hc. apply H. now right.
Qed.

End MoreStrings.

(** ** Searching the page *)

Section MoreSearch.

Implicit Types (w : World) (doc : Document) (l : list jsstring).

Lemma findFirst_log l w :
  exists extra,
    findFirst l w
    = (Normal (firstMatching (document (browser w)) l), addLog extra w) /\
    Forall (InvalidOf (document (browser w)) l) extra.
Proof.
  revert w. induction l as [|s rest IH]; intros w.
  - exists []. split; [now rewrite addLog_nil | constructor].
  - assert (forall extra,
             Forall (InvalidOf (document (browser w)) rest) extra ->
             Forall (InvalidOf (document (browser w)) (s :: rest)) extra)
      as Hweak.
    { intros extra Hf. eapply Forall_impl; [exact Hf|].
      intros e (s' & -> & Hin & Hv). exists s'. simpl. auto. }
    cbn [findFirst firstMatching].
    unfold bind, tryCatch, querySelectorAll, bind, gets, ret, throw.
    destruct (selectorValid (document (browser w)) s) eqn:Hv.
    + destruct (matchAll (document (browser w)) s) as [|e es] eqn:Hm.
      * simpl. destruct (IH w) as (extra & H & Hall). eauto.
      * simpl. exists []. split; [now rewrite addLog_nil | constructor].
    + rewrite emit_run.
      destruct (IH (addLog [WarnInvalidSelector s] w)) as (extra & H & Hall).
      rewrite H, addLog_app. eexists. split; [reflexivity|].
      constructor.
      * exists s. simpl. auto.
      * apply Hweak, Hall.
Qed.

Lemma firstMatching_first doc l els :
  firstMatching doc l = Some els <->
  els <> [] /\
  exists before s rest,
    l = before ++ s :: rest /\ selectorValid doc s = true /\
    matchAll doc s = els /\ MatchNothing doc before.
Proof.
  revert els. induction l as [|s l IH]; intros els; simpl.
  - split; [discriminate|]. intros (_ & before & s & rest & H & _).
    destruct before; discriminate.
  - assert (forall before, (selectorValid doc s = true -> matchAll doc s = []) ->
                           MatchNothing doc before ->
                           MatchNothing doc (s :: before)) as Hcons.
    { intros before Hs Hb s' [<-|Hin]; auto. }
    assert (forall before, MatchNothing doc (s :: before) ->
                           MatchNothing doc before) as Htail.
    { intros before Hb s' Hin. apply Hb. now right. }
    destruct (selectorValid doc s) eqn:Hv;
      [destruct (matchAll doc s) as [|e es] eqn:Hm|].
    + rewrite IH. split.
      * intros (Hne & before & s' & rest & -> & Hv' & Hm' & Hb).
        split; [exact Hne|]. exists (s :: before), s', rest.
        repeat split; auto.
      * intros (Hne & before & s' & rest & H & Hv' & Hm' & Hb).
        split; [exact Hne|]. destruct before as [|b before].
        -- injection H as -> ->. congruence.
        -- injection H as <- ->. exists before, s', rest.
           repeat split; eauto.
    + split.
      * intros [= <-]. split; [discriminate|].
        exists [], s, l. repeat split; auto. intros s' [].
      * intros (Hne & before & s' & rest & H & Hv' & Hm' & Hb).
        destruct before as [|b before].
        -- injection H as -> ->. congruence.
        -- injection H as <- ->. exfalso.
           assert (matchAll doc s = []) as Hnil
             by (apply Hb; simpl; auto).
           congruence.
    + rewrite IH. split.
      * intros (Hne & before & s' & rest & -> & Hv' & Hm' & Hb).
        split; [exact Hne|]. exists (s :: before), s', rest.
        repeat split; auto. apply Hcons; [congruence | exact Hb].
      * intros (Hne & before & s' & rest & H & Hv' & Hm' & Hb).
        split; [exact Hne|]. destruct before as [|b before].
        -- injection H as -> ->. congruence.
        -- injection H as <- ->. exists before, s', rest.
           repeat split; eauto.
Qed.

Lemma firstMatching_none doc l :
  firstMatching doc l = None <-> MatchNothing doc l.
Proof.
  split; [|apply firstMatching_nothing].
  induction l as [|s l IH]; simpl; [intros _ s []|].
  intros H s' [<-|Hin].
  - intros Hv. rewrite Hv in H. now destruct (matchAll doc s).
  - apply IH; [|exact Hin].
    destruct (selectorValid doc s); [|exact H].
    now destruct (matchAll doc s).
Qed.

(** X5.  [findElements] on an array of selectors never throws and changes
    nothing but the console, where it leaves warnings about invalid
    selectors only.  It returns the node list of the first selector
    that is valid and matches something, never an empty list, and null
    exactly when no selector of the array matches anything. *)
Theorem findElements_array_first l w :
  exists extra,
    after (findElements (SelArray l) w) = addLog extra w /\
    Forall (InvalidOf (document (browser w)) l) extra /\
    match result (findElements (SelArray l) w) with
    | Normal (Some els) =>
        els <> [] /\
        exists before s rest,
          l = before ++ s :: rest /\
          selectorValid (document (browser w)) s = true /\
          matchAll (document (browser w)) s = els /\
          MatchNothing (document (browser w)) before
    | Normal None => MatchNothing (document (browser w)) l
    | Thrown _ => False
    end.
Proof.
  destruct (findFirst_log l w) as (extra & H & Hall).
  exists extra. cbn [findElements]. rewrite H.
  split; [reflexivity|]. split; [exact Hall|]. cbn [result fst].
  destruct (firstMatching (document (browser w)) l) as [els|] eqn:Hf.
  - now apply firstMatching_first.
  - now apply firstMatching_none.
Qed.

Lemma firstChild_run el l w :
  exists r, firstChild el l w = (r, w).
Proof.
  induction l as [|s rest IH]; simpl; [eexists; reflexivity|].
  unfold bind, querySelector, bind, gets, ret, throw.
  destruct (selectorValid (document (browser w)) s);
    [|eexists; reflexivity].
  destruct (matchWithin (document (browser w)) el s);
    [eexists; reflexivity | exact IH].
Qed.

Lemma trimmedText_run node w :
  exists t, trimmedText node w = (Normal t, w) /\ trim t = t.
Proof.
  unfold trimmedText, bind, gets, ret.
  destruct (textContent (document (browser w)) node) as [t|].
  - eexists. split; [reflexivity | apply trim_idem].
  - exists []. split; reflexivity.
Qed.

(** X6.  [extractText] changes nothing but the console, and the text it
    returns is trimmed: it neither starts nor ends with white space. *)
Theorem extractText_trimmed el cs w :
  (exists extra, after (extractText el cs w) = addLog extra w) /\
  (forall t, result (extractText el cs w) = Normal t -> trim t = t).
Proof.
  assert (forall node w0, exists extra,
            after (trimmedText node w0) = addLog extra w0 /\
            forall t, result (trimmedText node w0) = Normal t -> trim t = t)
    as Htext.
  { intros node w0. destruct (trimmedText_run node w0) as (t & -> & Ht).
    exists []. split; [now rewrite addLog_nil|]. now intros t' [= <-]. }
  assert (forall (m : M Element) w0 extra,
            (exists r, m w0 = (r, addLog extra w)) ->
            (exists extra', after (bind m trimmedText w0) = addLog extra' w) /\
            forall t, result (bind m trimmedText w0) = Normal t -> trim t = t)
    as Hbind.
  { intros m w0 extra [[node|ex] Hm]; unfold bind; rewrite Hm.
    - destruct (Htext node (addLog extra w)) as (extra' & Ha & Ht).
      split; [|exact Ht]. rewrite Ha, addLog_app. eauto.
    - split; [eauto | discriminate]. }
  unfold extractText.
  destruct cs as [sel|];
    [destruct (truthy (Some sel))|];
    try (apply (Hbind _ w []); rewrite addLog_nil; eexists; reflexivity).
  destruct (findElements_run sel w) as [extra Hrun].
  apply (Hbind _ w extra). unfold bind at 1. rewrite Hrun.
  destruct (foundElements (document (browser w)) sel) as [[|e es]|];
    try (eexists; reflexivity).
  apply firstChild_run.
Qed.

End MoreSearch.

(** ** What an extraction pass leaves behind *)

Section MoreExtraction.

Implicit Types (w : World) (p : Platform) (ms acc : list MessageRecord).

Lemma mkRecord_wellformed i t el time :
  (0 <? length t)%nat = true -> trim t = t ->
  WellFormed (mkRecord i t el time).
Proof.
  intros Hlen Ht. repeat split; [|exact Ht].
  simpl. destruct t; [discriminate Hlen | discriminate].
Qed.

Lemma collectMessages_frame cs els i acc w :
  exists extra, after (collectMessages cs els i acc w) = addLog extra w.
Proof.
  revert i acc w. induction els as [|e els IH]; intros i acc w.
  - exists []. now rewrite addLog_nil.
  - cbn [collectMessages]. unfold bind at 1.
    destruct (extractText_trimmed e cs w) as [[extra Ha] _].
    destruct (extractText e cs w) as [[t|ex] w1]; simpl in Ha; subst w1.
    + unfold bind at 1, gets. cbv zeta.
      match goal with
      | |- context [collectMessages cs els ?j ?a (addLog extra w)] =>
          destruct (IH j a (addLog extra w)) as [extra' ->]
      end.
      rewrite addLog_app. eauto.
    + eauto.
Qed.

Lemma collectMessages_wellformed cs els i acc w ms w' :
  Forall WellFormed acc ->
  collectMessages cs els i acc w = (Normal ms, w') ->
  Forall WellFormed ms.
Proof.
  revert i acc w. induction els as [|e els IH]; intros i acc w Hacc.
  - now intros [= <- _].
  - cbn [collectMessages]. unfold bind at 1.
    destruct (extractText_trimmed e cs w) as [_ Ht].
    destruct (extractText e cs w) as [[t|ex] w1]; [|discriminate].
    unfold bind at 1, gets. cbv zeta. apply IH.
    destruct (0 <? length t)%nat eqn:Hlen; [|exact Hacc].
    apply Forall_app. split; [exact Hacc|]. constructor; [|constructor].
    apply mkRecord_wellformed; [exact Hlen | now apply Ht].
Qed.

Lemma collectDeepSeek_wellformed els acc w ms w' :
  Forall WellFormed acc ->
  collectDeepSeek els acc w = (Normal ms, w') ->
  Forall WellFormed ms.
Proof.
  revert acc. induction els as [|e els IH]; intros acc Hacc.
  - now intros [= <- _].
  - cbn [collectDeepSeek].
    unfold bind at 1, querySelectorLiteral, gets.
    destruct (matchWithin (document (browser w)) e (js ".fbb737a4"))
      as [content|]; [|now apply IH].
    unfold bind at 1.
    destruct (trimmedText_run content w) as (t & -> & Ht).
    unfold bind at 1, gets. cbv zeta. apply IH.
    destruct (0 <? length t)%nat eqn:Hlen; [|exact Hacc].
    apply Forall_app. split; [exact Hacc|]. constructor; [|constructor].
    now apply mkRecord_wellformed.
Qed.

Lemma extractMessages_generic_run w p e es extra :
  currentPlatform (platformDetector w) = Some p ->
  isDeepSeek p = false ->
  findElements (SelArray (userSelectorTexts p)) w
  = (Normal (Some (e :: es)), addLog extra w) ->
  extractMessages w
  = match collectMessages (messageContent (selectors (config p)))
            (e :: es) 0 [] (addLog extra w) with
    | (Normal ms, w1) =>
        (Normal ms,
         addLog [LogExtracted (length ms)]
           (onExtractor (setLastExtractTime (now (browser w1)))
              (onExtractor (setMessages ms) w1)))
    | (Thrown ex, w1) => (Thrown ex, w1)
    end.
Proof.
  intros Hp Hds Hrun.
  unfold extractMessages, getPlatformConfig, bind at 1, gets.
  rewrite Hp, Hds. cbv zeta. unfold bind at 1.
  fold (userSelectorTexts p). rewrite Hrun. unfold bind at 1.
  now destruct (collectMessages _ (e :: es) 0 [] (addLog extra w))
    as [[ms|ex] w1].
Qed.

(** The three ways a pass can end: with nothing found, by an exception,
    or with a list that it has stored. *)
Lemma extractMessages_shape w :
  (exists extra, extractMessages w = (Normal [], addLog extra w)) \/
  (exists extra e, extractMessages w = (Thrown e, addLog extra w)) \/
  (exists extra ms,
     extractMessages w
     = (Normal ms,
        addLog extra
          (onExtractor (setLastExtractTime (now (browser w)))
             (onExtractor (setMessages ms) w))) /\
     Forall WellFormed ms).
Proof.
  destruct (currentPlatform (platformDetector w)) as [p|] eqn:Hp.
  2: { left. rewrite (extractMessages_no_platform w Hp). eauto. }
  destruct (isDeepSeek p) eqn:Hds.
  - right. right.
    destruct (extractMessagesForDeepSeek_run w) as (ms & Hrun & _).
    exists [LogDeepSeekExtracted (length ms)], ms.
    assert (extractMessages w = extractMessagesForDeepSeek w) as ->.
    { unfold extractMessages, getPlatformConfig, bind at 1, gets.
      now rewrite Hp, Hds. }
    split; [exact Hrun|].
    revert Hrun. unfold extractMessagesForDeepSeek, bind at 1,
      querySelectorAllLiteral, gets. unfold bind at 1.
    destruct (collectDeepSeek _ [] w) as [[ms0|ex] w1] eqn:Hc;
      [|discriminate].
    intros [= <- _]. eapply collectDeepSeek_wellformed; [|exact Hc].
    constructor.
  - destruct (firstMatching (document (browser w)) (userSelectorTexts p))
      as [els|] eqn:Hf.
    2: { left. now apply (extractMessages_generic_none w p). }
    destruct (findElements_run (SelArray (userSelectorTexts p)) w)
      as [extra Hrun].
    cbn [foundElements] in Hrun. rewrite Hf in Hrun.
    pose proof (firstMatching_some _ _ _ Hf) as Hne.
    destruct els as [|e es]; [contradiction|].
    rewrite (extractMessages_generic_run w p e es extra Hp Hds Hrun).
    destruct (collectMessages_frame
                (messageContent (selectors (config p))) (e :: es) 0 []
                (addLog extra w)) as [extra' Hfr].
    destruct (collectMessages _ (e :: es) 0 [] (addLog extra w))
      as [[ms|ex] w1] eqn:Hc; unfold after in Hfr; cbn [snd] in Hfr;
      subst w1.
    + right. right. rewrite addLog_app.
      exists ((extra ++ extra') ++ [LogExtracted (length ms)]), ms.
      split;
        [rewrite <- (addLog_app (extra ++ extra') [LogExtracted (length ms)]);
         reflexivity|].
      eapply collectMessages_wellformed; [|exact Hc]. constructor.
    + right. left. rewrite addLog_app. eauto.
Qed.

(** X7.  [extractMessages] touches the cache, its time stamp and the console
    and nothing else, whether it returns or throws; and a pass that
    throws leaves the cache and the time stamp as they were. *)
Theorem extractMessages_frame w :
  SameOutsideCache w (after (extractMessages w)) /\
  (forall e, result (extractMessages w) = Thrown e ->
             messageExtractor (after (extractMessages w))
             = messageExtractor w).
Proof.
  destruct (extractMessages_shape w)
    as [[extra ->]|[(extra & e & ->)|(extra & ms & -> & _)]].
  - split; [repeat split|reflexivity].
  - split; [repeat split|reflexivity].
  - split; [repeat split|discriminate].
Qed.

(** X8.  Every record that [extractMessages] returns has a non-empty,
    trimmed text and the preview of that text; and a non-empty result
    is what the cache holds afterwards, stamped with the current time. *)
Theorem extractMessages_records w ms :
  result (extractMessages w) = Normal ms ->
  Forall WellFormed ms /\
  (ms <> [] ->
   messages (messageExtractor (after (extractMessages w))) = ms /\
   lastExtractTime (messageExtractor (after (extractMessages w)))
   = now (browser w)).
Proof.
  destruct (extractMessages_shape w)
    as [[extra ->]|[(extra & e & ->)|(extra & ms' & -> & Hwf)]].
  - intros [= <-]. split; [constructor | congruence].
  - discriminate.
  - intros [= <-]. split; [exact Hwf|]. intros _. split; reflexivity.
Qed.

(** An instance of X8. *)
Lemma extractMessages_records_chat :
  Forall WellFormed (messages (messageExtractor chatExtracted)) /\
  (messages (messageExtractor chatExtracted) <> [] ->
   messages (messageExtractor (after (extractMessages chatTwoMessages)))
   = messages (messageExtractor chatExtracted) /\
   lastExtractTime (messageExtractor (after (extractMessages chatTwoMessages)))
   = now (browser chatTwoMessages)).
Proof.
  apply (extractMessages_records chatTwoMessages). reflexivity.
Defined.

(** X9.  On the generic path the records of a pass follow the node list in
    document order, each with the position of its element in that list
    as index; the indices are [0..N-1] when none of the [N] elements
    was skipped. *)
Theorem extractMessages_document_order w p els ms :
  currentPlatform (platformDetector w) = Some p ->
  isDeepSeek p = false ->
  firstMatching (document (browser w)) (userSelectorTexts p) = Some els ->
  result (extractMessages w) = Normal ms ->
  sublist (map place ms) (numbered 0 els) /\
  (length ms = length els ->
   map index ms = seq 0 (length els) /\ map userElement ms = els).
Proof.
  intros Hp Hds Hf Hr.
  destruct (extractMessages w) as [r w'] eqn:He. simpl in Hr. subst r.
  now destruct (extractMessages_generic_found w p els ms w' Hp Hds Hf He)
    as (_ & Hs & Hd).
Qed.

(** An instance of X9. *)
Lemma extractMessages_document_order_chat :
  sublist (map place [mkRecord 0 (js "Hello world") 0 1000;
                      mkRecord 1 (js "Bye") 1 1000])
          (numbered 0 [0; 1]%nat) /\
  (length [mkRecord 0 (js "Hello world") 0 1000; mkRecord 1 (js "Bye") 1 1000]
   = length [0; 1]%nat ->
   map index [mkRecord 0 (js "Hello world") 0 1000;
              mkRecord 1 (js "Bye") 1 1000]
   = seq 0 (length [0; 1]%nat) /\
   map userElement [mkRecord 0 (js "Hello world") 0 1000;
                    mkRecord 1 (js "Bye") 1 1000]
   = [0; 1]%nat).
Proof.
  eapply (extractMessages_document_order chatTwoMessages);
    [reflexivity | reflexivity | reflexivity | reflexivity].
Defined.

Lemma lookupMessage_nat ms (k : nat) :
  lookupMessage ms (Int (Z.of_nat k)) = ms !! k.
Proof.
  simpl. destruct (Z.leb_spec 0 (Z.of_nat k)); [|lia]. now rewrite Nat2Z.id.
Qed.

(** X10.  On the DeepSeek path a pass never throws, always stores what it
    returns, numbers the records [0..n-1], and each record is found
    again under its index. *)
Theorem extractMessagesForDeepSeek_lookup w :
  exists ms,
    result (extractMessagesForDeepSeek w) = Normal ms /\
    messages (messageExtractor (after (extractMessagesForDeepSeek w))) = ms /\
    map index ms = seq 0 (length ms) /\
    forall m, In m ms ->
      result (getMessageByIndex (Int (Z.of_nat (index m)))
                (after (extractMessagesForDeepSeek w)))
      = Normal (Some m).
Proof.
  destruct (extractMessagesForDeepSeek_run w) as (ms & -> & Hidx).
  exists ms. repeat split; [exact Hidx|].
  intros m Hm. unfold getMessageByIndex, bind, gets, ret, result.
  cbn [fst messages messageExtractor addLog onBrowser onExtractor
       setLastExtractTime setMessages].
  rewrite lookupMessage_nat.
  apply list_elem_of_In, list_elem_of_lookup_1 in Hm as [k Hk].
  change (Normal (ms !! index m) = Normal (Some m)).
  assert (index m = k) as Hik; [|now rewrite Hik, Hk].
  pose proof (lookup_lt_Some _ _ _ Hk) as Hlt.
  apply (f_equal (fun l => l !! k)) in Hidx.
  rewrite list_lookup_fmap, Hk, lookup_seq_lt in Hidx by exact Hlt.
  now injection Hidx.
Qed.

End MoreExtraction.

(** ** Detection and refresh, composed *)

Section MoreDetection.

Implicit Types (w : World) (p : Platform).

Lemma detectPlatform_run w :
  detectPlatform w
  = match platformsConfig (platformDetector w) with
    | None => (Normal None, addLog [WarnConfigNotLoaded] w)
    | Some platforms =>
        match scanPlatforms (hostname (browser w)) platforms with
        | Some p =>
            (Normal (Some p),
             addLog [LogDetected (key p)]
               (onDetector (setCurrentPlatform (Some p)) w))
        | None => (Normal None, addLog [WarnUnknownPlatform] w)
        end
    end.
Proof.
  unfold detectPlatform, bind at 1, gets.
  destruct (platformsConfig (platformDetector w)) as [platforms|];
    [|reflexivity].
  unfold bind at 1, gets.
  now destruct (scanPlatforms (hostname (browser w)) platforms).
Qed.



(** X12.  A detection that succeeds makes its platform current: the detector
    then reports a supported platform, and detecting again on the same
    host gives the same platform.  The cache and the sidebar are not
    touched. *)
Theorem detectPlatform_hit_is_current w p :
  result (detectPlatform w) = Normal (Some p) ->
  result (getPlatformConfig (after (detectPlatform w))) = Normal (Some p) /\
  result (isSupportedPlatform (after (detectPlatform w))) = Normal true /\
  result (detectPlatform (after (detectPlatform w))) = Normal (Some p) /\
  messageExtractor (after (detectPlatform w)) = messageExtractor w /\
  sidebarManager (after (detectPlatform w)) = sidebarManager w.
Proof.
  rewrite detectPlatform_run.
  destruct (platformsConfig (platformDetector w)) as [platforms|] eqn:Hc;
    [|discriminate].
  destruct (scanPlatforms (hostname (browser w)) platforms) as [q|] eqn:Hs;
    [|discriminate].
  intros [= ->]. repeat split.
  rewrite detectPlatform_run. cbn. rewrite Hc, Hs. reflexivity.
Qed.

(** An instance of X12. *)
Lemma detectPlatform_hit_is_current_chatgpt :
  result (getPlatformConfig (after (detectPlatform chatStart)))
  = Normal (Some chatgptPlatform) /\
  result (isSupportedPlatform (after (detectPlatform chatStart)))
  = Normal true /\
  result (detectPlatform (after (detectPlatform chatStart)))
  = Normal (Some chatgptPlatform) /\
  messageExtractor (after (detectPlatform chatStart))
  = messageExtractor chatStart /\
  sidebarManager (after (detectPlatform chatStart)) = sidebarManager chatStart.
Proof.
  apply (detectPlatform_hit_is_current chatStart). reflexivity.
Defined.

(** X13.  Right after a pass of the generic path that found its elements
    with the platform's own selector, on the same page at the same
    time, [shouldRefresh] answers true exactly when the pass skipped an
    element: the live count includes the elements with empty text, the
    cache does not. *)
Theorem shouldRefresh_after_pass w p s els ms :
  currentPlatform (platformDetector w) = Some p ->
  isDeepSeek p = false ->
  userMessage (selectors (config p)) = SelString s ->
  selectorValid (document (browser w)) s = true ->
  matchAll (document (browser w)) s = els ->
  els <> [] ->
  result (extractMessages w) = Normal ms ->
  result (shouldRefresh (after (extractMessages w)))
  = Normal (negb (length els =? length ms)%nat).
Proof.
  intros Hp Hds Hsel Hv Hm Hne Hr.
  destruct els as [|e es]; [contradiction|].
  destruct (findElements_run (SelArray (userSelectorTexts p)) w)
    as [extra Hrun].
  unfold userSelectorTexts in Hrun at 2. rewrite Hsel in Hrun.
  cbn [foundElements firstMatching selectorText] in Hrun.
  rewrite Hv, Hm in Hrun.
  revert Hr. rewrite (extractMessages_generic_run w p e es extra Hp Hds Hrun).
  destruct (collectMessages_frame
              (messageContent (selectors (config p))) (e :: es) 0 []
              (addLog extra w)) as [extra' Hfr].
  destruct (collectMessages _ (e :: es) 0 [] (addLog extra w))
    as [[ms0|ex] w1]; unfold after in Hfr; cbn [snd] in Hfr; subst w1;
    [|discriminate].
  intros [= ->]. unfold after at 1. cbn [snd].
  match goal with
  | |- result (shouldRefresh ?W) = _ =>
      destruct (shouldRefresh_run W p Hp) as [extra'' ->]
  end.
  unfold result, liveCount. cbn [fst]. rewrite Hds, Hsel.
  cbn. rewrite Hv, Hm. rewrite Z.sub_diag. reflexivity.
Qed.

(** An instance of X13. *)
Lemma shouldRefresh_after_pass_blank :
  result (shouldRefresh (after (extractMessages chatBlankSecond)))
  = Normal (negb (length [0; 1; 2]%nat
                  =? length [mkRecord 0 (js "a") 0 1000;
                             mkRecord 2 (js "b") 2 1000])%nat).
Proof.
  apply (shouldRefresh_after_pass chatBlankSecond chatgptPlatform chatgptUser);
    [reflexivity | reflexivity | reflexivity | reflexivity | reflexivity
    | discriminate | reflexivity].
Defined.

End MoreDetection.

(** ** Rendering and navigation *)

Section MoreSidebar.

Implicit Types (w : World) (ms : list MessageRecord).

Lemma updateSidebar_run w :
  updateSidebar w
  = (Normal tt,
     onManager
       (setSidebarElement
          (Some (setMessagesHtml
                   match messages (messageExtractor w) with
                   | [] => EmptyNotice
                   | ms => Items (imap renderItem ms)
                   end
                   (setPlatformLabel
                      (platformPrefix
                       ++ displayName (currentPlatform (platformDetector w)))
                      (sidebarOrNew w))))) w).
Proof.
  unfold sidebarOrNew.
  destruct (sidebarElement (sidebarManager w)) as [el|] eqn:Hel.
  - unfold updateSidebar, bind at 1, gets. rewrite Hel.
    destruct w as [pd ex [se iv he] br]. simpl in Hel. subst se.
    unfold bind, getMessages, getPlatformName, gets, ret, onSidebar, modify.
    cbn. destruct (messages ex); reflexivity.
  - unfold updateSidebar, bind at 1, gets. rewrite Hel.
    unfold bind at 1. unfold bind at 1.
    rewrite (createSidebar_builds w Hel).
    destruct w as [pd ex [se iv he] br]. simpl in Hel. subst se.
    unfold bind, getMessages, getPlatformName, gets, ret, onSidebar, modify.
    cbn. destruct (messages ex); reflexivity.
Qed.

Lemma rows_updateSidebar w :
  rows (after (updateSidebar w))
  = imap renderItem (messages (messageExtractor w)).
Proof.
  rewrite updateSidebar_run. unfold rows. cbn.
  now destruct (messages (messageExtractor w)).
Qed.

(** X14.  [updateSidebar] renders one row per cached message, in order: row
    [j] carries [j] as its data index and [j+1] as its number, shows
    the escaped text and preview of the [j]-th message, is not active,
    and its data index leads [getMessageByIndex] back to that message.
    The label shows the platform name; the cache, the visibility flag
    and the browser are not touched. *)
Theorem updateSidebar_rows w :
  result (updateSidebar w) = Normal tt /\
  length (rows (after (updateSidebar w)))
  = length (messages (messageExtractor w)) /\
  (forall j item,
     rows (after (updateSidebar w)) !! j = Some item ->
     exists msg,
       result (getMessageByIndex (Int (Z.of_nat (dataIndex item)))
                 (after (updateSidebar w))) = Normal (Some msg) /\
       messages (messageExtractor w) !! j = Some msg /\
       dataIndex item = j /\ number item = (j + 1)%nat /\
       title item = escapeHtml (userText msg) /\
       text item = escapeHtml (preview msg) /\
       active item = false) /\
  (platformLabel <$> sidebarElement (sidebarManager (after (updateSidebar w))))
  = Some (platformPrefix
          ++ displayName (currentPlatform (platformDetector w))) /\
  messageExtractor (after (updateSidebar w)) = messageExtractor w /\
  isVisible (sidebarManager (after (updateSidebar w)))
  = isVisible (sidebarManager w) /\
  browser (after (updateSidebar w)) = browser w.
Proof.
  pose proof (rows_updateSidebar w) as Hrows.
  split; [now rewrite updateSidebar_run|].
  split; [now rewrite Hrows, length_imap|].
  split.
  - intros j item. rewrite Hrows, list_lookup_imap.
    destruct (messages (messageExtractor w) !! j) as [msg|] eqn:Hj;
      [|discriminate].
    intros [= <-]. exists msg. rewrite updateSidebar_run.
    unfold getMessageByIndex, bind, gets, ret, result.
    cbn [fst snd after messages messageExtractor onManager renderItem
         dataIndex].
    rewrite lookupMessage_nat, Hj. repeat split; reflexivity.
  - rewrite updateSidebar_run. repeat split; reflexivity.
Qed.

Lemma deactivate_rendered ms :
  map deactivate (imap renderItem ms) = imap renderItem ms.
Proof.
  apply list_eq. intros j.
  rewrite list_lookup_fmap, list_lookup_imap.
  now destruct (ms !! j).
Qed.

Lemma activate_rows o k ms :
  activate (Z.of_nat k) (imap (fun j => markedRow false (o + j)) ms)
  = if decide (o <= k < o + length ms)%nat
    then Some (imap (fun j => markedRow (o + j =? k)%nat (o + j)) ms, k)
    else None.
Proof.
  revert o. induction ms as [|m ms IH]; intros o.
  - simpl. destruct (decide _); [lia|reflexivity].
  - rewrite !imap_cons. cbn [activate markedRow dataIndex].
    rewrite Nat.add_0_r.
    rewrite (imap_ext _ (fun j => markedRow false (S o + j)) ms)
      by (intros; simpl; now rewrite Nat.add_succ_r).
    destruct (Z.eqb_spec (Z.of_nat o) (Z.of_nat k)) as [Heq|Hne].
    + apply Nat2Z.inj in Heq. subst k.
      destruct (decide _) as [_|Hn]; [|simpl in Hn; lia].
      rewrite Nat.eqb_refl. f_equal. f_equal. f_equal.
      apply imap_ext. intros j x _. simpl.
      destruct (Nat.eqb_spec (o + S j) o); [lia|].
      now rewrite Nat.add_succ_r.
    + assert (o <> k) as Hne' by congruence.
      rewrite IH. simpl length.
      destruct (decide (S o <= k < S o + length ms)%nat) as [Hin|Hout];
        destruct (decide (o <= k < o + S (length ms))%nat) as [Hin'|Hout'];
        try lia; [|reflexivity].
      destruct (Nat.eqb_spec o k); [contradiction|].
      f_equal. f_equal. f_equal.
      apply imap_ext. intros j x _. simpl.
      now rewrite Nat.add_succ_r.
Qed.

Lemma updateActiveItem_run w el items z :
  sidebarElement (sidebarManager w) = Some el ->
  messagesHtml el = Items items ->
  updateActiveItem (Int z) w
  = match activate z (map deactivate items) with
    | Some (items', i) =>
        (Normal tt,
         onBrowser (fun b => setScrollLog (scrollLog b ++ [ScrollToItem i]) b)
           (onManager
              (setSidebarElement (Some (setMessagesHtml (Items items') el)))
              w))
    | None =>
        (Normal tt,
         onManager
           (setSidebarElement
              (Some (setMessagesHtml (Items (map deactivate items)) el))) w)
    end.
Proof.
  intros Hel Hitems. unfold updateActiveItem, bind, gets. rewrite Hel, Hitems.
  destruct w as [pd ex [se iv he] br]. simpl in Hel. subst se.
  destruct (activate z (map deactivate items)) as [[items' i]|]; reflexivity.
Qed.

(** [updateActiveItem] never throws and stays within the sidebar's
    rows and the scroll requests. *)
Lemma updateActiveItem_frame w index :
  result (updateActiveItem index w) = Normal tt /\
  platformDetector (after (updateActiveItem index w)) = platformDetector w /\
  messageExtractor (after (updateActiveItem index w)) = messageExtractor w /\
  isVisible (sidebarManager (after (updateActiveItem index w)))
  = isVisible (sidebarManager w) /\
  highlightedElement (sidebarManager (after (updateActiveItem index w)))
  = highlightedElement (sidebarManager w) /\
  highlighted (browser (after (updateActiveItem index w)))
  = highlighted (browser w) /\
  storage (browser (after (updateActiveItem index w))) = storage (browser w) /\
  timers (browser (after (updateActiveItem index w))) = timers (browser w) /\
  console (browser (after (updateActiveItem index w))) = console (browser w).
Proof.
  unfold updateActiveItem, bind, gets.
  destruct (sidebarElement (sidebarManager w)) as [el|];
    [|repeat split].
  destruct (messagesHtml el) as [| |items]; try (repeat split; fail).
  destruct index as [|z]; [repeat split|].
  destruct (activate z (map deactivate items)) as [[items' i]|];
    repeat split.
Qed.

Lemma scrollToMessage_found_run w index m :
  lookupMessage (messages (messageExtractor w)) index = Some m ->
  scrollToMessage index w
  = (Normal tt,
     onBrowser (fun b => setTimers (timers b ++ [(3000%Z, RemoveHighlight)]) b)
       (after (updateActiveItem index (highlightOn m w)))).
Proof.
  intros Hm.
  pose proof (updateActiveItem_frame (highlightOn m w) index) as [Hr _].
  transitivity (bind (updateActiveItem index)
                  (fun _ => setTimeout RemoveHighlight 3000)
                  (highlightOn m w)).
  - unfold scrollToMessage, bind at 1, getMessageByIndex, bind at 1, gets, ret.
    rewrite Hm. destruct w as [pd ex [se iv he] br].
    destruct he as [prev|]; reflexivity.
  - unfold bind.
    destruct (updateActiveItem index (highlightOn m w)) as [[[]|ex'] w2];
      [reflexivity | discriminate Hr].
Qed.

End MoreSidebar.

(** ** Navigation, highlight and visibility *)

Section MoreNavigation.

Implicit Types (w : World) (ms : list MessageRecord).

Lemma updateActiveItem_scroll w index :
  exists more,
    scrollLog (browser (after (updateActiveItem index w)))
    = scrollLog (browser w) ++ more.
Proof.
  unfold updateActiveItem, bind, gets.
  destruct (sidebarElement (sidebarManager w)) as [el|];
    [|exists []; simpl; now rewrite app_nil_r].
  destruct (messagesHtml el) as [| |items];
    try (exists []; simpl; now rewrite app_nil_r).
  destruct index as [|z]; [exists []; simpl; now rewrite app_nil_r|].
  destruct (activate z (map deactivate items)) as [[items' i]|].
  - exists [ScrollToItem i]. reflexivity.
  - exists []. simpl. now rewrite app_nil_r.
Qed.

(** X15.  Navigating to a cached message scrolls to its element first, moves
    the highlight class from the element tracked so far to it, tracks
    it, and queues one removal in 3000 ms.  The storage, the cache, the
    visibility flag and the console stay as they are. *)
Theorem scrollToMessage_highlights w index m :
  lookupMessage (messages (messageExtractor w)) index = Some m ->
  result (scrollToMessage index w) = Normal tt /\
  highlightedElement (sidebarManager (after (scrollToMessage index w)))
  = Some (userElement m) /\
  highlighted (browser (after (scrollToMessage index w)))
  = moveHighlight w (userElement m) /\
  timers (browser (after (scrollToMessage index w)))
  = timers (browser w) ++ [(3000%Z, RemoveHighlight)] /\
  (exists more,
     scrollLog (browser (after (scrollToMessage index w)))
     = scrollLog (browser w) ++ ScrollToElement (userElement m) :: more) /\
  storage (browser (after (scrollToMessage index w))) = storage (browser w) /\
  messageExtractor (after (scrollToMessage index w)) = messageExtractor w /\
  isVisible (sidebarManager (after (scrollToMessage index w)))
  = isVisible (sidebarManager w) /\
  console (browser (after (scrollToMessage index w))) = console (browser w).
Proof.
  intros Hm. rewrite (scrollToMessage_found_run w index m Hm).
  destruct (updateActiveItem_frame (highlightOn m w) index)
    as (_ & _ & Hex & Hiv & Hhe & Hhl & Hst & Htm & Hco).
  destruct (updateActiveItem_scroll (highlightOn m w) index) as [more Hsc].
  set (U := after (updateActiveItem index (highlightOn m w))) in *.
  clearbody U. unfold after, result. cbn [fst snd].
  cbn [onBrowser browser sidebarManager messageExtractor setTimers timers
       highlighted storage console scrollLog].
  rewrite Hhe, Hhl, Hst, Htm, Hco, Hex, Hiv, Hsc.
  repeat split. exists more. simpl. now rewrite <- app_assoc.
Qed.

(** An instance of X15. *)
Lemma scrollToMessage_highlights_second :
  result (scrollToMessage (Int 1) chatRendered) = Normal tt /\
  highlightedElement
    (sidebarManager (after (scrollToMessage (Int 1) chatRendered)))
  = Some (userElement (mkRecord 1 (js "Bye") 1 1000)) /\
  highlighted (browser (after (scrollToMessage (Int 1) chatRendered)))
  = moveHighlight chatRendered (userElement (mkRecord 1 (js "Bye") 1 1000)) /\
  timers (browser (after (scrollToMessage (Int 1) chatRendered)))
  = timers (browser chatRendered) ++ [(3000%Z, RemoveHighlight)] /\
  (exists more,
     scrollLog (browser (after (scrollToMessage (Int 1) chatRendered)))
     = scrollLog (browser chatRendered)
       ++ ScrollToElement (userElement (mkRecord 1 (js "Bye") 1 1000))
          :: more) /\
  storage (browser (after (scrollToMessage (Int 1) chatRendered)))
  = storage (browser chatRendered) /\
  messageExtractor (after (scrollToMessage (Int 1) chatRendered))
  = messageExtractor chatRendered /\
  isVisible (sidebarManager (after (scrollToMessage (Int 1) chatRendered)))
  = isVisible (sidebarManager chatRendered) /\
  console (browser (after (scrollToMessage (Int 1) chatRendered)))
  = console (browser chatRendered).
Proof.
  apply (scrollToMessage_highlights chatRendered (Int 1)
           (mkRecord 1 (js "Bye") 1 1000)).
  reflexivity.
Defined.

Lemma scrollToMessage_found_highlight w index m :
  lookupMessage (messages (messageExtractor w)) index = Some m ->
  highlightedElement (sidebarManager (after (scrollToMessage index w)))
  = Some (userElement m) /\
  highlighted (browser (after (scrollToMessage index w)))
  = moveHighlight w (userElement m).
Proof.
  intros Hm. rewrite (scrollToMessage_found_run w index m Hm).
  destruct (updateActiveItem_frame (highlightOn m w) index)
    as (_ & _ & _ & _ & Hhe & Hhl & _).
  set (U := after (updateActiveItem index (highlightOn m w))) in *.
  clearbody U. unfold after. cbn [snd].
  cbn [onBrowser browser sidebarManager setTimers highlighted].
  rewrite Hhe, Hhl. split; reflexivity.
Qed.

(** X16.  If the highlight class sits on the tracked element and nowhere
    else, this stays so after any navigation and after the removal
    callback, and the callback leaves no element highlighted. *)
Theorem highlight_stays_tracked w index :
  HighlightTracked w ->
  HighlightTracked (after (scrollToMessage index w)) /\
  HighlightTracked (after (removeHighlight w)) /\
  highlighted (browser (after (removeHighlight w))) = ∅ /\
  highlightedElement (sidebarManager (after (removeHighlight w))) = None.
Proof.
  unfold HighlightTracked. intros H. split.
  - destruct (lookupMessage (messages (messageExtractor w)) index)
      as [m|] eqn:Hm.
    + destruct (scrollToMessage_found_highlight w index m Hm) as [-> ->].
      unfold moveHighlight. rewrite H.
      destruct (highlightedElement (sidebarManager w)) as [prev|].
      * rewrite difference_diag_L. apply (left_id_L ∅ (∪)).
      * apply (left_id_L ∅ (∪)).
    + apply lookupMessage_absent in Hm.
      rewrite (scrollToMessage_absent w index Hm). exact H.
  - unfold removeHighlight, bind, gets.
    destruct (highlightedElement (sidebarManager w)) as [el|] eqn:He.
    + cbn. rewrite H. repeat split; apply difference_diag_L.
    + cbn. rewrite He. repeat split; exact H.
Qed.

(** An instance of X16. *)
Lemma highlight_stays_tracked_rendered :
  HighlightTracked (after (scrollToMessage (Int 0) chatRendered)) /\
  HighlightTracked (after (removeHighlight chatRendered)) /\
  highlighted (browser (after (removeHighlight chatRendered))) = ∅ /\
  highlightedElement (sidebarManager (after (removeHighlight chatRendered)))
  = None.
Proof.
  apply (highlight_stays_tracked chatRendered (Int 0)). reflexivity.
Defined.

Lemma rows_items w ms :
  ms <> [] ->
  rows w = imap renderItem ms ->
  exists el, sidebarElement (sidebarManager w) = Some el /\
             messagesHtml el = Items (imap renderItem ms).
Proof.
  intros Hne. destruct ms as [|m ms]; [contradiction|].
  unfold rows. rewrite imap_cons.
  destruct (sidebarElement (sidebarManager w)) as [el|]; [|discriminate].
  destruct (messagesHtml el) as [| |items] eqn:Hmh; try discriminate.
  intros ->. exists el. split; [reflexivity|]. exact Hmh.
Qed.

(** X17.  A click on row [k] of a list rendered from the cache: afterwards
    row [k] is the one active row, every other row is as rendered, and
    the page was asked to scroll to the message and then to the row. *)
Theorem scrollToMessage_marks_row w k m :
  messages (messageExtractor w) !! k = Some m ->
  rows w = imap renderItem (messages (messageExtractor w)) ->
  rows (after (scrollToMessage (Int (Z.of_nat k)) w))
  = rowsWithActive k (messages (messageExtractor w)) /\
  scrollLog (browser (after (scrollToMessage (Int (Z.of_nat k)) w)))
  = scrollLog (browser w)
    ++ [ScrollToElement (userElement m); ScrollToItem k].
Proof.
  intros Hk Hrows.
  pose proof (lookup_lt_Some _ _ _ Hk) as Hlt.
  destruct (rows_items w (messages (messageExtractor w)))
    as (el & Hel & Hitems);
    [intros Hnil; rewrite Hnil in Hlt; simpl in Hlt; lia | exact Hrows |].
  assert (lookupMessage (messages (messageExtractor w)) (Int (Z.of_nat k))
          = Some m) as Hm by (now rewrite lookupMessage_nat).
  rewrite (scrollToMessage_found_run w _ m Hm).
  rewrite (updateActiveItem_run (highlightOn m w) el
             (imap renderItem (messages (messageExtractor w)))
             (Z.of_nat k) Hel Hitems).
  rewrite deactivate_rendered.
  pose proof (activate_rows 0 k (messages (messageExtractor w))) as Ha.
  change (imap (fun j => markedRow false (0 + j))
               (messages (messageExtractor w)))
    with (imap renderItem (messages (messageExtractor w))) in Ha.
  rewrite Ha. destruct (decide _) as [_|Hn]; [|lia].
  split.
  - unfold rows. reflexivity.
  - simpl. now rewrite <- app_assoc.
Qed.

(** An instance of X17. *)
Lemma scrollToMessage_marks_row_second :
  rows (after (scrollToMessage (Int (Z.of_nat 1)) chatRendered))
  = rowsWithActive 1 (messages (messageExtractor chatRendered)) /\
  scrollLog (browser (after (scrollToMessage (Int (Z.of_nat 1)) chatRendered)))
  = scrollLog (browser chatRendered)
    ++ [ScrollToElement (userElement (mkRecord 1 (js "Bye") 1 1000));
        ScrollToItem 1].
Proof.
  apply (scrollToMessage_marks_row chatRendered 1
           (mkRecord 1 (js "Bye") 1 1000)); reflexivity.
Defined.

End MoreNavigation.

(** ** Visibility *)

Section MoreVisibility.

Implicit Types (w : World).

Lemma toggleSidebar_state w el :
  sidebarElement (sidebarManager w) = Some el ->
  toggleSidebar w
  = (Normal tt,
     onBrowser (fun b =>
         setStorage (<["sidebarVisible"%string
                       := negb (isVisible (sidebarManager w))]> (storage b)) b)
       (onManager (fun sm =>
           setSidebarElement
             (Some (setToggleIcon
                      (if negb (isVisible (sidebarManager w))
                       then minusSign else plusSign)
                      (setCollapsed (isVisible (sidebarManager w)) el)))
             (setIsVisible (negb (isVisible (sidebarManager w))) sm)) w)).
Proof.
  intros Hel. unfold toggleSidebar, bind at 1, gets. rewrite Hel.
  destruct w as [pd ex [se iv he] br]. simpl in Hel. subst se.
  unfold bind, gets, modify, onSidebar, storageSet. cbn.
  now rewrite negb_involutive.
Qed.

(** X18.  On a built sidebar one toggle leaves class, icon and stored flag
    in step with the new visibility; a second toggle restores the
    visibility, with class, icon and stored flag in step again, and the
    rows and listeners are never touched. *)
Theorem toggleSidebar_twice w el :
  sidebarElement (sidebarManager w) = Some el ->
  sidebarElement (sidebarManager (after (toggleSidebar w)))
  = Some (setToggleIcon
            (if isVisible (sidebarManager w) then plusSign else minusSign)
            (setCollapsed (isVisible (sidebarManager w)) el)) /\
  storage (browser (after (toggleSidebar w))) !! "sidebarVisible"%string
  = Some (negb (isVisible (sidebarManager w))) /\
  isVisible (sidebarManager (after (toggleSidebar (after (toggleSidebar w)))))
  = isVisible (sidebarManager w) /\
  sidebarElement
    (sidebarManager (after (toggleSidebar (after (toggleSidebar w)))))
  = Some (setToggleIcon
            (if isVisible (sidebarManager w) then minusSign else plusSign)
            (setCollapsed (negb (isVisible (sidebarManager w))) el)) /\
  storage (browser (after (toggleSidebar (after (toggleSidebar w)))))
  = <["sidebarVisible"%string := isVisible (sidebarManager w)]>
      (storage (browser w)).
Proof.
  intros Hel. rewrite (toggleSidebar_state w el Hel).
  unfold after at 1 2. cbn [snd].
  split; [cbn; now destruct (isVisible (sidebarManager w))|].
  split; [cbn; apply lookup_insert_eq|].
  erewrite toggleSidebar_state by reflexivity.
  cbn. rewrite negb_involutive, insert_insert_eq.
  repeat split; now destruct (isVisible (sidebarManager w)).
Qed.

(** An instance of X18. *)
Lemma toggleSidebar_twice_chat :
  sidebarElement (sidebarManager (after (toggleSidebar chatRendered)))
  = Some (setToggleIcon
            (if isVisible (sidebarManager chatRendered)
             then plusSign else minusSign)
            (setCollapsed (isVisible (sidebarManager chatRendered))
               (sidebarOrNew chatRendered))) /\
  storage (browser (after (toggleSidebar chatRendered)))
    !! "sidebarVisible"%string
  = Some (negb (isVisible (sidebarManager chatRendered))) /\
  isVisible (sidebarManager
               (after (toggleSidebar (after (toggleSidebar chatRendered)))))
  = isVisible (sidebarManager chatRendered) /\
  sidebarElement
    (sidebarManager
       (after (toggleSidebar (after (toggleSidebar chatRendered)))))
  = Some (setToggleIcon
            (if isVisible (sidebarManager chatRendered)
             then minusSign else plusSign)
            (setCollapsed (negb (isVisible (sidebarManager chatRendered)))
               (sidebarOrNew chatRendered))) /\
  storage (browser (after (toggleSidebar (after (toggleSidebar chatRendered)))))
  = <["sidebarVisible"%string := isVisible (sidebarManager chatRendered)]>
      (storage (browser chatRendered)).
Proof.
  apply (toggleSidebar_twice chatRendered (sidebarOrNew chatRendered)).
  reflexivity.
Defined.

(** X19.  [show] and [hide] set the class to match the visibility but leave
    the toggle icon and the stored flag alone.  So when a visible
    sidebar is collapsed with [toggleSidebar] and then brought back
    with [show], it is visible again while its icon still reads [+]
    and the stored flag still says hidden. *)
Theorem show_hide_keep_icon w el :
  sidebarElement (sidebarManager w) = Some el ->
  (sidebarElement (sidebarManager (after (hide w)))
   = Some (setCollapsed true el) /\
   isVisible (sidebarManager (after (hide w))) = false /\
   browser (after (hide w)) = browser w) /\
  (sidebarElement (sidebarManager (after (show w)))
   = Some (setCollapsed false el) /\
   isVisible (sidebarManager (after (show w))) = true /\
   browser (after (show w)) = browser w) /\
  (isVisible (sidebarManager w) = true ->
   isVisible (sidebarManager (after (show (after (toggleSidebar w))))) = true /\
   (collapsed <$>
      sidebarElement (sidebarManager (after (show (after (toggleSidebar w))))))
   = Some false /\
   (toggleIcon <$>
      sidebarElement (sidebarManager (after (show (after (toggleSidebar w))))))
   = Some plusSign /\
   storage (browser (after (show (after (toggleSidebar w)))))
     !! "sidebarVisible"%string = Some false).
Proof.
  intros Hel. split; [|split].
  - unfold hide, bind at 1, gets. rewrite Hel.
    destruct w as [pd ex [se iv he] br]. simpl in Hel. subst se.
    repeat split.
  - unfold show, bind at 1, gets. rewrite Hel.
    destruct w as [pd ex [se iv he] br]. simpl in Hel. subst se.
    repeat split.
  - intros Hv. rewrite (toggleSidebar_state w el Hel), Hv.
    unfold show, bind, gets, after. cbn.
    repeat split. apply lookup_insert_eq.
Qed.

(** An instance of X19. *)
Lemma show_hide_keep_icon_chat :
  (sidebarElement (sidebarManager (after (hide chatRendered)))
   = Some (setCollapsed true (sidebarOrNew chatRendered)) /\
   isVisible (sidebarManager (after (hide chatRendered))) = false /\
   browser (after (hide chatRendered)) = browser chatRendered) /\
  (sidebarElement (sidebarManager (after (show chatRendered)))
   = Some (setCollapsed false (sidebarOrNew chatRendered)) /\
   isVisible (sidebarManager (after (show chatRendered))) = true /\
   browser (after (show chatRendered)) = browser chatRendered) /\
  (isVisible (sidebarManager chatRendered) = true ->
   isVisible (sidebarManager (after (show (after (toggleSidebar chatRendered)))))
   = true /\
   (collapsed <$>
      sidebarElement
        (sidebarManager (after (show (after (toggleSidebar chatRendered))))))
   = Some false /\
   (toggleIcon <$>
      sidebarElement
        (sidebarManager (after (show (after (toggleSidebar chatRendered))))))
   = Some plusSign /\
   storage (browser (after (show (after (toggleSidebar chatRendered)))))
     !! "sidebarVisible"%string = Some false).
Proof.
  apply (show_hide_keep_icon chatRendered (sidebarOrNew chatRendered)).
  reflexivity.
Defined.

End MoreVisibility.

(** ** The debounced refresh and the message listener *)

Section MoreRefresh.

Implicit Types (pg : Page).

Lemma clearTimeout_tracked pg :
  OneTimer pg -> clearTimeout (debounceTimer pg) (refreshTimers pg) = [].
Proof.
  intros [->|(id & due & -> & ->)].
  - now destruct (debounceTimer pg).
  - simpl. now rewrite Nat.eqb_refl.
Qed.

Lemma refresh_queue pg :
  OneTimer pg ->
  refreshTimers (refresh pg)
  = [(nextTimerId pg, (now (browser (world pg)) + refreshDelay)%Z)].
Proof.
  intros H. unfold refresh. cbn. now rewrite clearTimeout_tracked.
Qed.

Lemma refresh_OneTimer pg : OneTimer pg -> OneTimer (refresh pg).
Proof.
  intros H. right. eexists _, _. split; [now apply refresh_queue|reflexivity].
Qed.

Lemma clearTimeout_OneTimer pg id w :
  OneTimer pg ->
  OneTimer {| world := w; debounceTimer := debounceTimer pg;
              refreshTimers := clearTimeout id (refreshTimers pg);
              nextTimerId := nextTimerId pg |}.
Proof.
  intros [H|(i & due & H & Hd)]; unfold OneTimer; cbn; rewrite H.
  - left. now destruct id.
  - destruct id as [j|]; [|right; eauto]. simpl.
    destruct (i =? j)%nat; [left; reflexivity | right; eauto].
Qed.

(** X20.  However often [refresh] is called while the page changes and time
    passes, as long as no timer has fired in between one refresh is
    pending afterwards: the one of the last call, due 500 ms after
    it. *)
Theorem refresh_debounced pg changes doc t :
  OneTimer pg ->
  refreshTimers (refreshEach (changes ++ [(doc, t)]) pg)
  = [((nextTimerId pg + length changes)%nat, (t + 500)%Z)] /\
  debounceTimer (refreshEach (changes ++ [(doc, t)]) pg)
  = Some (nextTimerId pg + length changes)%nat.
Proof.
  revert pg. induction changes as [|[d u] changes IH]; intros pg H.
  - cbn [app refreshEach length]. rewrite Nat.add_0_r.
    split; [|reflexivity].
    rewrite refresh_queue; [reflexivity|]. exact H.
  - cbn [app refreshEach length].
    destruct (IH (refresh (pageChangesOn d u pg))) as [Hq Hd].
    { apply refresh_OneTimer. exact H. }
    rewrite Hq, Hd. cbn [refresh nextTimerId pageChangesOn].
    rewrite Nat.add_succ_r. split; reflexivity.
Qed.

(** An instance of X20. *)
Lemma refresh_debounced_chat :
  refreshTimers
    (refreshEach ([(pageWith chatgptUser [js "a"], 1100%Z);
                   (pageWith chatgptUser [js "a"; js "b"], 1200%Z)]
                  ++ [(pageWith chatgptUser [js "a"; js "b"], 1300%Z)])
       chatPage)
  = [((nextTimerId chatPage + 2)%nat, (1300 + 500)%Z)] /\
  debounceTimer
    (refreshEach ([(pageWith chatgptUser [js "a"], 1100%Z);
                   (pageWith chatgptUser [js "a"; js "b"], 1200%Z)]
                  ++ [(pageWith chatgptUser [js "a"; js "b"], 1300%Z)])
       chatPage)
  = Some (nextTimerId chatPage + 2)%nat.
Proof.
  apply (refresh_debounced chatPage
           [(pageWith chatgptUser [js "a"], 1100%Z);
            (pageWith chatgptUser [js "a"; js "b"], 1200%Z)]).
  left. reflexivity.
Defined.

(** X21.  Whatever the page does next (a refresh, the observer or interval
    callback, a timer firing, a message from the popup, the teardown),
    at most the tracked refresh timer is pending afterwards. *)
Theorem one_refresh_pending pg :
  OneTimer pg ->
  OneTimer (refresh pg) /\
  OneTimer (refreshIfNeeded pg) /\
  (forall id, OneTimer (fireRefresh id pg)) /\
  (forall p action, OneTimer (fst (onMessage p action pg))) /\
  OneTimer (destroy pg).
Proof.
  intros H.
  assert (forall A (m : M A), OneTimer (onWorld m pg)) as Hon.
  { intros A m. exact H. }
  split; [now apply refresh_OneTimer|]. split; [|split; [|split]].
  - unfold refreshIfNeeded.
    destruct (result (shouldRefresh (world pg))) as [[|]|];
      [apply refresh_OneTimer|..]; apply Hon.
  - intros id. unfold fireRefresh. destruct (existsb _ _); [|exact H].
    now apply clearTimeout_OneTimer.
  - intros p action. unfold onMessage.
    repeat case_bool_decide; cbn [fst];
      [apply Hon | now apply refresh_OneTimer | exact H | exact H].
  - unfold destroy. now apply clearTimeout_OneTimer.
Qed.

(** An instance of X21. *)
Lemma one_refresh_pending_chat :
  OneTimer (refresh chatPage) /\
  OneTimer (refreshIfNeeded chatPage) /\
  (forall id, OneTimer (fireRefresh id chatPage)) /\
  (forall p action, OneTimer (fst (onMessage p action chatPage))) /\
  OneTimer (destroy chatPage).
Proof. apply (one_refresh_pending chatPage). left. reflexivity. Defined.

(** X22.  When the pending refresh timer fires at its due time the queue is
    empty again and the callback has run: if the extraction returned,
    the rows of the sidebar are those of the cache it left; if it threw,
    the callback ended there, with sidebar and cache as they were.
    Before the due time nothing happens. *)
Theorem fireRefresh_renders pg id due :
  refreshTimers pg = [(id, due)] ->
  ((due <= now (browser (world pg)))%Z ->
   refreshTimers (fireRefresh id pg) = [] /\
   match result (extractMessages (world pg)) with
   | Normal _ =>
       rows (world (fireRefresh id pg))
       = imap renderItem (messages (messageExtractor (world (fireRefresh id pg))))
   | Thrown _ =>
       sidebarManager (world (fireRefresh id pg)) = sidebarManager (world pg) /\
       messageExtractor (world (fireRefresh id pg))
       = messageExtractor (world pg)
   end) /\
  ((now (browser (world pg)) < due)%Z -> fireRefresh id pg = pg).
Proof.
  intros Hq. unfold fireRefresh. rewrite Hq. cbn [existsb fst snd].
  rewrite Nat.eqb_refl. cbn [andb orb negb List.filter clearTimeout].
  split.
  - intros Hdue. rewrite orb_false_r.
    destruct (Z.leb_spec due (now (browser (world pg)))); [|lia].
    cbn [refreshTimers world]. rewrite Nat.eqb_refl. split; [reflexivity|].
    unfold refreshCallback, bind.
    destruct (extractMessages_shape (world pg))
      as [[extra ->]|[(extra & e & ->)|(extra & ms & -> & _)]];
      cbn [result fst].
    + rewrite rows_updateSidebar. now rewrite updateSidebar_run.
    + split; reflexivity.
    + rewrite rows_updateSidebar. now rewrite updateSidebar_run.
  - intros Hearly. rewrite orb_false_r.
    destruct (Z.leb_spec due (now (browser (world pg)))); [lia|reflexivity].
Qed.

(** An instance of X22. *)
Lemma fireRefresh_renders_chat :
  ((1600 <= now (browser (world chatRefreshDue)))%Z ->
   refreshTimers (fireRefresh 1 chatRefreshDue) = [] /\
   match result (extractMessages (world chatRefreshDue)) with
   | Normal _ =>
       rows (world (fireRefresh 1 chatRefreshDue))
       = imap renderItem
           (messages (messageExtractor (world (fireRefresh 1 chatRefreshDue))))
   | Thrown _ =>
       sidebarManager (world (fireRefresh 1 chatRefreshDue))
       = sidebarManager (world chatRefreshDue) /\
       messageExtractor (world (fireRefresh 1 chatRefreshDue))
       = messageExtractor (world chatRefreshDue)
   end) /\
  ((now (browser (world chatRefreshDue)) < 1600)%Z ->
   fireRefresh 1 chatRefreshDue = chatRefreshDue).
Proof.
  apply (fireRefresh_renders chatRefreshDue 1 1600). reflexivity.
Defined.

(** X23.  The teardown leaves no refresh pending, so no callback can render
    again, and drops the sidebar; a later [createSidebar] builds a new
    one with its two listeners.  The cache, the highlight and the
    pending highlight removals are not touched. *)
Theorem destroy_stops_refresh pg :
  OneTimer pg ->
  refreshTimers (destroy pg) = [] /\
  (forall id, fireRefresh id (destroy pg) = destroy pg) /\
  sidebarElement (sidebarManager (world (destroy pg))) = None /\
  result (createSidebar (world (destroy pg))) = Normal (Some builtSidebar) /\
  messageExtractor (world (destroy pg)) = messageExtractor (world pg) /\
  highlightedElement (sidebarManager (world (destroy pg)))
  = highlightedElement (sidebarManager (world pg)) /\
  browser (world (destroy pg)) = browser (world pg).
Proof.
  intros H.
  assert (refreshTimers (destroy pg) = []) as Hq
    by (now apply clearTimeout_tracked).
  assert (sidebarElement (sidebarManager (world (destroy pg))) = None) as Hs.
  { unfold destroy. cbn [world].
    now destruct (sidebarElement (sidebarManager (world pg))) eqn:He. }
  split; [exact Hq|]. split; [|split; [exact Hs|split]].
  - intros id. unfold fireRefresh. now rewrite Hq.
  - now rewrite (createSidebar_builds _ Hs).
  - unfold destroy. cbn [world].
    now destruct (sidebarElement (sidebarManager (world pg))).
Qed.

(** An instance of X23. *)
Lemma destroy_stops_refresh_chat :
  refreshTimers (destroy chatRefreshDue) = [] /\
  (forall id, fireRefresh id (destroy chatRefreshDue)
              = destroy chatRefreshDue) /\
  sidebarElement (sidebarManager (world (destroy chatRefreshDue))) = None /\
  result (createSidebar (world (destroy chatRefreshDue)))
  = Normal (Some builtSidebar) /\
  messageExtractor (world (destroy chatRefreshDue))
  = messageExtractor (world chatRefreshDue) /\
  highlightedElement (sidebarManager (world (destroy chatRefreshDue)))
  = highlightedElement (sidebarManager (world chatRefreshDue)) /\
  browser (world (destroy chatRefreshDue)) = browser (world chatRefreshDue).
Proof.
  apply (destroy_stops_refresh chatRefreshDue).
  right. exists 1%nat, 1600%Z. split; reflexivity.
Defined.

(** X24.  The listener answers [getStatus] from the current state without
    changing it.  After a [toggleSidebar] message on a built sidebar the
    status shows the flipped visibility; a [refreshMessages] message
    only schedules the refresh, so the world, and with it the reported
    count, is the same right afterwards. *)
Theorem onMessage_status p pg el :
  sidebarElement (sidebarManager (world pg)) = Some el ->
  onMessage p (js "getStatus") pg
  = (pg, Some (Status (name (config p))
                      (length (messages (messageExtractor (world pg))))
                      (isVisible (sidebarManager (world pg))))) /\
  snd (onMessage p (js "toggleSidebar") pg) = Some Success /\
  snd (onMessage p (js "getStatus") (fst (onMessage p (js "toggleSidebar") pg)))
  = Some (Status (name (config p))
                 (length (messages (messageExtractor (world pg))))
                 (negb (isVisible (sidebarManager (world pg))))) /\
  snd (onMessage p (js "refreshMessages") pg) = Some Success /\
  world (fst (onMessage p (js "refreshMessages") pg)) = world pg.
Proof.
  intros Hel. split; [reflexivity|]. split; [reflexivity|].
  split; [|split; reflexivity].
  change (onMessage p (js "toggleSidebar") pg)
    with (onWorld toggleSidebar pg, Some Success).
  change (snd (onMessage p (js "getStatus") ?x))
    with (Some (Status (name (config p))
                  (length (messages (messageExtractor (world x))))
                  (isVisible (sidebarManager (world x))))).
  cbn [fst onWorld world].
  now rewrite (toggleSidebar_state (world pg) el Hel).
Qed.

(** An instance of X24. *)
Lemma onMessage_status_chat :
  onMessage chatgptPlatform (js "getStatus") chatPage
  = (chatPage,
     Some (Status (name (config chatgptPlatform))
             (length (messages (messageExtractor (world chatPage))))
             (isVisible (sidebarManager (world chatPage))))) /\
  snd (onMessage chatgptPlatform (js "toggleSidebar") chatPage)
  = Some Success /\
  snd (onMessage chatgptPlatform (js "getStatus")
         (fst (onMessage chatgptPlatform (js "toggleSidebar") chatPage)))
  = Some (Status (name (config chatgptPlatform))
             (length (messages (messageExtractor (world chatPage))))
             (negb (isVisible (sidebarManager (world chatPage))))) /\
  snd (onMessage chatgptPlatform (js "refreshMessages") chatPage)
  = Some Success /\
  world (fst (onMessage chatgptPlatform (js "refreshMessages") chatPage))
  = world chatPage.
Proof.
  apply (onMessage_status chatgptPlatform chatPage (sidebarOrNew chatRendered)).
  reflexivity.
Defined.

End MoreRefresh.
